(** * ilaria-connect: chat client adapter, locale heuristic and translation lookup

    A shallow embedding of [lib/chatClient.ts], [lib/endpoints.ts],
    [lib/lang.ts] and of the session and locale logic of the [SupportChat]
    component, followed by the properties stated about them.

    JavaScript values are embedded as the inductive type [JsVal]; the
    [||] operator, property reads, [switch] and exceptions follow the
    language semantics.  Text is a [string] holding the bytes of its
    UTF-8 encoding.  The operations with ASCII needles and patterns
    ([includes], [startsWith], [replace], [split], the regular
    expressions) tell apart ASCII characters only and are those of the
    engine on every text.  [trim] and [toLowerCase] are written out for
    ASCII text ([isAscii]): beyond it the engine also strips the blanks
    of Unicode and lowers letters, two of them (U+0130 and U+212A) to
    ASCII letters.  The component takes the two methods from the engine
    ([Engine.t]), so that its handlers are embedded for every text, and
    a statement that needs to know what the methods do is made for ASCII
    text. *)

From Stdlib Require Import String Ascii List Bool Arith NArith Lia DecimalString.
From Stdlib Require Import PrimFloat.
Import ListNotations.

Set Warnings "-register-all".
Local Open Scope string_scope.
Local Open Scope bool_scope.

(* ================================================================== *)
(** * JavaScript values *)
(* ================================================================== *)

(** The values that flow through the client: [undefined], and whatever
    [JSON.parse] can produce.  A [JObj] lists the own properties of a
    plain object in insertion order; a read returns the first binding. *)
Inductive JsVal : Type :=
| JUndefined
| JNull
| JBool (b : bool)
| JNum (x : float)
| JStr (s : string)
| JArr (xs : list JsVal)
| JObj (fields : list (string * JsVal)).

(** ToBoolean: [undefined], [null], [false], [+0], [-0], [NaN] and the
    empty string are falsy; every object and array is truthy. *)
Definition truthy (v : JsVal) : bool :=
  match v with
  | JUndefined | JNull => false
  | JBool b => b
  | JNum x => negb (PrimFloat.eqb x 0%float || PrimFloat.is_nan x)
  | JStr s => negb (s =? "")
  | JArr _ | JObj _ => true
  end.

(** [v === label] for a text literal, which is also how the labels of
    a [switch] are compared. *)
Definition strictEq (v : JsVal) (label : string) : bool :=
  match v with
  | JStr s => s =? label
  | _ => false
  end.

(** What can be thrown: an [Error] instance (only its [message] is ever
    read) or any other value. *)
Inductive Thrown : Type :=
| ErrorObject (message : string)
| NonError (v : JsVal).

(** Outcome of evaluating code that may throw; for an [async] function,
    [Normal] is a fulfilled promise and [Throw] a rejected one. *)
Inductive Completion (A : Type) : Type :=
| Normal (a : A)
| Throw (e : Thrown).
Arguments Normal {A} a.
Arguments Throw {A} e.

Definition bind {A B : Type} (c : Completion A) (k : A -> Completion B)
  : Completion B :=
  match c with
  | Normal a => k a
  | Throw e => Throw e
  end.

Notation "x <- c ;; k" := (bind c (fun x => k))
  (at level 61, c at next level, right associativity).

(** [a || b] with [b] evaluated only when [a] is falsy. *)
Definition orElse (a b : Completion JsVal) : Completion JsVal :=
  x <- a ;; if truthy x then Normal x else b.
Infix "|||" := orElse (at level 50, left associativity).

(** [try { c } catch (e) { return h(e) }] with a handler that does not
    throw itself. *)
Definition tryCatch {A : Type} (c : Completion A) (h : Thrown -> A) : A :=
  match c with
  | Normal a => a
  | Throw e => h e
  end.

Fixpoint lookup (k : string) (fields : list (string * JsVal)) : option JsVal :=
  match fields with
  | [] => None
  | (k', v) :: rest => if k' =? k then Some v else lookup k rest
  end.

(** The [TypeError] raised by a property read on [null] or [undefined]
    (the wording is V8's; no property below depends on it). *)
Definition nullishRead (base k : string) : Thrown :=
  ErrorObject ("Cannot read properties of " ++ base ++ " (reading '" ++ k ++ "')").

(** [data.k] for the field names read from response bodies ([reply],
    [message], [content], [suggestions], [quick_replies], [session_id],
    [sessionId], [code], [error_code], [error]): none of them is a
    built-in member of strings, numbers, booleans, arrays or
    [Object.prototype], so only an own property of an object can answer. *)
Definition dataField (data : JsVal) (k : string) : Completion JsVal :=
  match data with
  | JNull => Throw (nullishRead "null" k)
  | JUndefined => Throw (nullishRead "undefined" k)
  | JObj fields =>
      Normal (match lookup k fields with Some v => v | None => JUndefined end)
  | _ => Normal JUndefined
  end.

(** [`${n}`] for a non-negative integer. *)
Definition showN (n : N) : string := NilEmpty.string_of_uint (N.to_uint n).

(** [String.prototype.startsWith] and [String.prototype.includes] *)
Fixpoint startsWith (s p : string) {struct p} : bool :=
  match p with
  | EmptyString => true
  | String c p' =>
      match s with
      | String d s' => (c =? d)%char && startsWith s' p'
      | EmptyString => false
      end
  end.

Fixpoint includes (s sub : string) : bool :=
  startsWith s sub ||
  match s with
  | EmptyString => false
  | String _ rest => includes rest sub
  end.

(** Character codes in a range, and the change of case of the letters
    A to Z; [toUpperChar] is what the [i] flag of a regular expression
    compares by. *)
Definition between (lo hi : N) (c : ascii) : bool :=
  ((lo <=? N_of_ascii c) && (N_of_ascii c <=? hi))%N.

Definition toLowerChar (c : ascii) : ascii :=
  if between 65 90 c then ascii_of_N (N_of_ascii c + 32) else c.

Definition toUpperChar (c : ascii) : ascii :=
  if between 97 122 c then ascii_of_N (N_of_ascii c - 32) else c.

(** Text of ASCII characters only. *)
Fixpoint isAscii (s : string) : bool :=
  match s with
  | EmptyString => true
  | String c rest => (N_of_ascii c <? 128)%N && isAscii rest
  end.

(** [String.prototype.toLowerCase] on ASCII text, where it lowers the
    letters A to Z and nothing else.  [detectLocale] asks only whether
    the lower-cased text begins with "it", which this decides for every
    text: beyond ASCII only U+0130 lowers to a text that begins with an
    "i", and a combining dot follows that "i". *)
Fixpoint toLowerCase (s : string) : string :=
  match s with
  | EmptyString => EmptyString
  | String c rest => String (toLowerChar c) (toLowerCase rest)
  end.

(** What [JSON.stringify] keeps of a value: properties whose value is
    [undefined] are dropped, [undefined] array elements and non-finite
    numbers become [null], and [-0] is written as [0].  The textual
    encoding itself is not modelled. *)
Fixpoint jsonDocument (v : JsVal) : JsVal :=
  match v with
  | JNum x =>
      if PrimFloat.is_nan x || PrimFloat.is_infinity x then JNull
      else if PrimFloat.eqb x 0%float then JNum 0%float
      else v
  | JArr xs =>
      JArr (map (fun x => match x with
                          | JUndefined => JNull
                          | _ => jsonDocument x
                          end) xs)
  | JObj fields =>
      JObj ((fix keep (fs : list (string * JsVal)) :=
               match fs with
               | [] => []
               | (k, JUndefined) :: rest => keep rest
               | (k, x) :: rest => (k, jsonDocument x) :: keep rest
               end) fields)
  | _ => v
  end.

(* ================================================================== *)
(** * lib/endpoints.ts *)
(* ================================================================== *)

(** The table of relative paths, in the version that has [start].
    [getBackendUrl] resolves a path against the configured base address;
    requests are identified by their path here. *)
Module ENDPOINTS.
Definition start : string := "/api/chat/start".
Definition chat : string := "/api/chat/msg".
Definition escalate : string := "/api/escalate/".
Definition health : string := "/health/".
Definition stream : string := "/api/chat/stream/".
End ENDPOINTS.

(* ================================================================== *)
(** * lib/lang.ts *)
(* ================================================================== *)

Inductive Locale : Type := it | en.

Definition localeTag (l : Locale) : string :=
  match l with it => "it" | en => "en" end.

(** [detectLocale], given [import.meta.env.VITE_DEFAULT_LOCALE] and
    [navigator.language]. *)
Definition detectLocale (envLocale : JsVal) (browserLanguage : string) : Locale :=
  if strictEq envLocale "it" then it
  else if strictEq envLocale "en" then en
  else if startsWith (toLowerCase browserLanguage) "it" then it
  else en.

(** The static translation table, one object per locale. *)
Definition translations (locale : Locale) : JsVal :=
  match locale with
  | it => JObj [
      ("agentName", JStr "Ilaria");
      ("agentRole", JStr "Assistente Compliance");
      ("online", JStr "Online");
      ("slaInfo", JStr "Rispondo in pochi secondi");
      ("escalate", JStr "Parla con un umano");
      ("greeting", JStr "Ciao! Sono Ilaria, la tua assistente per la compliance aziendale. Come posso aiutarti oggi?");
      ("quickReplies", JArr [
         JStr "Devo aprire una nuova attività";
         JStr "Verifica obblighi";
         JStr "Parla in English"]);
      ("placeholder", JStr "Scrivi un messaggio...");
      ("sending", JStr "Invio...");
      ("escalateTitle", JStr "Vuoi parlare con un collega?");
      ("escalateMessage", JStr "Ti metto in contatto con un esperto umano. Va bene?");
      ("escalateConfirm", JStr "Sì, grazie");
      ("escalateCancel", JStr "No, continua tu");
      ("escalated", JStr "Perfetto! Ti metto in contatto con un collega umano. Resta in linea.");
      ("errorTitle", JStr "Ops, c'è un problema");
      ("errorNetwork", JStr "Non riesco a contattare il server. Verifica la connessione.");
      ("errorTimeout", JStr "Il server ci sta mettendo troppo. Riprova tra poco.");
      ("errorQuota", JStr "Hai raggiunto il limite di richieste. Riprova più tardi.");
      ("errorBilling", JStr "Il servizio non è attivo. Contatta l'amministratore.");
      ("errorUnknown", JStr "Qualcosa è andato storto. Riprova.");
      ("retry", JStr "Riprova");
      ("healthCheck", JStr "Verifica server");
      ("healthOk", JStr "Server OK");
      ("healthFail", JStr "Server non raggiungibile")]
  | en => JObj [
      ("agentName", JStr "Ilaria");
      ("agentRole", JStr "Compliance Assistant");
      ("online", JStr "Online");
      ("slaInfo", JStr "I respond in seconds");
      ("escalate", JStr "Talk to a human");
      ("greeting", JStr "Hi! I'm Ilaria, your business compliance assistant. How can I help you today?");
      ("quickReplies", JArr [
         JStr "Start a new business";
         JStr "Check obligations";
         JStr "Parla in Italiano"]);
      ("placeholder", JStr "Type a message...");
      ("sending", JStr "Sending...");
      ("escalateTitle", JStr "Want to talk to a colleague?");
      ("escalateMessage", JStr "I'll connect you with a human expert. Sound good?");
      ("escalateConfirm", JStr "Yes, please");
      ("escalateCancel", JStr "No, continue");
      ("escalated", JStr "Perfect! I'm connecting you with a human colleague. Stand by.");
      ("errorTitle", JStr "Oops, there's a problem");
      ("errorNetwork", JStr "Can't reach the server. Check your connection.");
      ("errorTimeout", JStr "The server is taking too long. Try again in a moment.");
      ("errorQuota", JStr "You've reached the request limit. Try again later.");
      ("errorBilling", JStr "The service is not active. Contact the administrator.");
      ("errorUnknown", JStr "Something went wrong. Please try again.");
      ("retry", JStr "Retry");
      ("healthCheck", JStr "Check server");
      ("healthOk", JStr "Server OK");
      ("healthFail", JStr "Server unreachable")]
  end.

(** [key.split(sep)] for a one-character separator: never empty, and
    the empty string splits into one empty segment. *)
Fixpoint split (sep : ascii) (key : string) : list string :=
  match key with
  | EmptyString => [EmptyString]
  | String c rest =>
      if (c =? sep)%char then EmptyString :: split sep rest
      else match split sep rest with
           | [] => [String c EmptyString]
           | seg :: segs => String c seg :: segs
           end
  end.

Section Lookup.

(** Members a value answers for without owning them as data
    properties of a plain object: whatever the engine finds on the
    prototype chain, and the indices and [length] of strings and
    arrays.  They are a parameter of the embedding. *)
Variable builtin : JsVal -> string -> JsVal.

(** [value?.[k]] *)
Definition member (value : JsVal) (k : string) : JsVal :=
  match value with
  | JUndefined | JNull => JUndefined
  | JObj fields =>
      match lookup k fields with
      | Some v => v
      | None => builtin value k
      end
  | _ => builtin value k
  end.

Definition t (locale : Locale) (key : string) : JsVal :=
  let keys := split "." key in
  let value := fold_left member keys (translations locale) in
  if truthy value then value else JStr key.

End Lookup.

(* ================================================================== *)
(** * lib/chatClient.ts *)
(* ================================================================== *)

Inductive Role : Type := user | assistant | system.

Definition roleTag (r : Role) : string :=
  match r with
  | user => "user"
  | assistant => "assistant"
  | system => "system"
  end.

(** [content] is typed [string], but the view stores the backend's
    [reply] in it unconverted, so it holds whatever value that is. *)
Module Message.
Record t : Type := make
  { role : Role;
    content : JsVal;
    timestamp : option float }.
End Message.

Module ChatRequest.
Record t : Type := make
  { message : option string;
    messages : option (list Message.t);
    sessionId : option string;
    locale : option Locale }.
End ChatRequest.

(** Fields typed optional read [JUndefined] when the object literal
    that built the response leaves them out. *)
Module ChatResponse.
Record t : Type := make
  { reply : JsVal;
    suggestions : JsVal;
    sessionId : JsVal;
    error : JsVal;
    code : JsVal }.
End ChatResponse.

Module EscalateRequest.
Record t : Type := make
  { sessionId : option string;
    reason : string;
    transcript : list Message.t }.
End EscalateRequest.

Module EscalateResult.
Record t : Type := make
  { success : bool;
    error : JsVal }.
End EscalateResult.

Module HealthResult.
Record t : Type := make
  { ok : bool;
    error : JsVal }.
End HealthResult.

(** An optional field of a typed object as the value a read yields. *)
Definition optional {A : Type} (inj : A -> JsVal) (o : option A) : JsVal :=
  match o with
  | Some a => inj a
  | None => JUndefined
  end.

Definition messageValue (m : Message.t) : JsVal :=
  JObj ([("role", JStr (roleTag (Message.role m)));
         ("content", Message.content m)]
        ++ match Message.timestamp m with
           | Some ts => [("timestamp", JNum ts)]
           | None => []
           end).

Definition transcriptValue (ms : list Message.t) : JsVal :=
  JArr (map messageValue ms).

(** What [fetch] is called with; [body] is the document handed to
    [JSON.stringify], absent for a request without body. *)
Module HttpRequest.
Record t : Type := make
  { method : string;
    path : string;
    headers : list (string * string);
    body : option JsVal }.
End HttpRequest.

(** The part of a [Response] the client reads: its status, and what
    [response.json()] settles to (a rejection when the body is not
    JSON). *)
Module Response.
Record t : Type := make
  { status : N;
    json : Completion JsVal }.

(** [response.ok]: the status is in the range 200-299. *)
Definition ok (r : t) : bool :=
  ((200 <=? status r) && (status r <=? 299))%N.
End Response.

(** How the statements of a [try] block up to and including
    [await fetch(...)] end: with a response, or with something thrown
    (a transport failure, or [new URL] refusing the address). *)
Definition Transport : Type := HttpRequest.t -> Completion Response.t.

Definition jsonHeaders : list (string * string) :=
  [("Content-Type", "application/json")].

(** [handleNetworkError]; the [console.error] call is not modelled. *)
Definition errorText (error : Thrown) : string :=
  match error with
  | ErrorObject message => message
  | NonError _ => "Unknown error"
  end.

Definition handleNetworkError (error : Thrown) : ChatResponse.t :=
  let message := errorText error in
  if includes message "fetch" || includes message "network" then
    ChatResponse.make (JStr "") JUndefined JUndefined (JStr "network_error") JUndefined
  else
    ChatResponse.make (JStr "") JUndefined JUndefined (JStr "unknown_error") JUndefined.

Definition handleErrorResponse (response : Response.t)
  : Completion ChatResponse.t :=
  let status := Response.status response in
  let errorData :=
    match Response.json response with
    | Normal data => data
    | Throw _ => JObj []
    end in
  code <- dataField errorData "code"
          ||| dataField errorData "error_code"
          ||| Normal (JStr ("http_" ++ showN status)) ;;
  error <- dataField errorData "error"
           ||| dataField errorData "message"
           ||| Normal (JStr ("HTTP " ++ showN status)) ;;
  let error :=
    if strictEq code "quota_exceeded" || strictEq code "rate_limit" then
      JStr "quota_exceeded"
    else if strictEq code "billing_not_active" || strictEq code "payment_required" then
      JStr "billing_not_active"
    else if strictEq code "invalid_api_key" || strictEq code "unauthorized" then
      JStr "invalid_api_key"
    else if strictEq code "timeout" then
      JStr "timeout"
    else if (500 <=? status)%N then
      JStr "server_error"
    else if ((status =? 401) || (status =? 403))%N then
      JStr "invalid_api_key"
    else if (status =? 429)%N then
      JStr "quota_exceeded"
    else error in
  Normal (ChatResponse.make (JStr "") JUndefined JUndefined error code).

(** The object assigned to [body] before it is serialised. *)
Definition chatBody (request : ChatRequest.t) : JsVal :=
  let body :=
    [("session_id", optional JStr (ChatRequest.sessionId request));
     ("locale", optional (fun l => JStr (localeTag l)) (ChatRequest.locale request))] in
  let messages := optional transcriptValue (ChatRequest.messages request) in
  if truthy messages
     && (0 <? List.length (match ChatRequest.messages request with
                      | Some ms => ms
                      | None => []
                      end))%nat
  then JObj (body ++ [("messages", messages)])
  else if truthy (optional JStr (ChatRequest.message request))
  then JObj (body ++ [("message", optional JStr (ChatRequest.message request))])
  else JObj body.

Definition chatRequest (request : ChatRequest.t) : HttpRequest.t :=
  HttpRequest.make "POST" ENDPOINTS.chat jsonHeaders
    (Some (jsonDocument (chatBody request))).

(** [askBackend].  The promise of [handleErrorResponse] is returned
    without [await], so its rejection is the rejection of [askBackend]
    and does not reach the [catch] clause. *)
Definition askBackend (fetch : Transport) (request : ChatRequest.t)
  : Completion ChatResponse.t :=
  match fetch (chatRequest request) with
  | Throw error => Normal (handleNetworkError error)
  | Normal response =>
      if negb (Response.ok response) then handleErrorResponse response
      else
        Normal (tryCatch
          (data <- Response.json response ;;
           reply <- dataField data "reply"
                    ||| dataField data "message"
                    ||| dataField data "content"
                    ||| Normal (JStr "") ;;
           suggestions <- dataField data "suggestions"
                          ||| dataField data "quick_replies"
                          ||| Normal (JArr []) ;;
           sessionId <- dataField data "session_id"
                        ||| dataField data "sessionId"
                        ||| Normal (optional JStr (ChatRequest.sessionId request)) ;;
           Normal (ChatResponse.make reply suggestions sessionId JUndefined JUndefined))
          handleNetworkError)
  end.

Definition escalateBody (request : EscalateRequest.t) : JsVal :=
  JObj [("session_id", match EscalateRequest.sessionId request with
                       | Some s => JStr s
                       | None => JNull
                       end);
        ("reason", JStr (EscalateRequest.reason request));
        ("transcript", transcriptValue (EscalateRequest.transcript request))].

Definition escalateRequest (request : EscalateRequest.t) : HttpRequest.t :=
  HttpRequest.make "POST" ENDPOINTS.escalate jsonHeaders
    (Some (jsonDocument (escalateBody request))).

(** [escalate]: here [handleErrorResponse] is awaited inside [try]. *)
Definition escalate (fetch : Transport) (request : EscalateRequest.t)
  : EscalateResult.t :=
  tryCatch
    (response <- fetch (escalateRequest request) ;;
     if negb (Response.ok response) then
       error <- handleErrorResponse response ;;
       Normal (EscalateResult.make false (ChatResponse.error error))
     else Normal (EscalateResult.make true JUndefined))
    (fun error =>
       let err := handleNetworkError error in
       EscalateResult.make false (ChatResponse.error err)).

Definition healthRequest : HttpRequest.t :=
  HttpRequest.make "GET" ENDPOINTS.health [] None.

Definition checkHealth (fetch : Transport) : HealthResult.t :=
  match fetch healthRequest with
  | Normal response =>
      HealthResult.make (Response.ok response)
        (if Response.ok response then JUndefined
         else JStr ("HTTP " ++ showN (Response.status response)))
  | Throw error =>
      HealthResult.make false
        (match error with
         | ErrorObject message => JStr message
         | NonError _ => JStr "Network error"
         end)
  end.

(* ================================================================== *)
(** * Regular expressions *)
(* ================================================================== *)

(** The fragment of the pattern language used by the component, under
    the [i] flag and without the [u] flag. *)
Inductive Regex : Type :=
| Eps
| Lit (c : ascii)
| WordChar
| WordBoundary
| Cat (r1 r2 : Regex)
| Alt (r1 r2 : Regex)
| Star (r : Regex).

(** [\w] is [[A-Za-z0-9_]]. *)
Definition isWordChar (c : ascii) : bool :=
  between 65 90 c || between 97 122 c || between 48 57 c
  || (N_of_ascii c =? 95)%N.

Definition wordBefore (prev : option ascii) : bool :=
  match prev with
  | Some c => isWordChar c
  | None => false
  end.

Definition wordAhead (s : string) : bool :=
  match s with
  | String c _ => isWordChar c
  | EmptyString => false
  end.

(** Greedy repetition of [step]: another round, which has to consume
    something, or else the rest of the pattern.  No round can succeed
    once [fuel], the number of characters left, is used up. *)
Fixpoint iterate
    (step : option ascii -> string -> (option ascii -> string -> bool) -> bool)
    (k : option ascii -> string -> bool)
    (fuel : nat) (prev : option ascii) (s : string) {struct fuel} : bool :=
  match fuel with
  | O => k prev s
  | S fuel' =>
      step prev s
        (fun p rest =>
           if (String.length rest <? String.length s)%nat
           then iterate step k fuel' p rest
           else false)
      || k prev s
  end.

(** Backtracking matcher: [run r prev s k] matches [r] at the front of
    [s], [prev] being the character before it, and hands what is left
    to the continuation [k]. *)
Fixpoint run (r : Regex) (prev : option ascii) (s : string)
    (k : option ascii -> string -> bool) {struct r} : bool :=
  match r with
  | Eps => k prev s
  | Lit c =>
      match s with
      | String a rest =>
          if (toUpperChar a =? toUpperChar c)%char then k (Some a) rest
          else false
      | EmptyString => false
      end
  | WordChar =>
      match s with
      | String a rest => if isWordChar a then k (Some a) rest else false
      | EmptyString => false
      end
  | WordBoundary =>
      if xorb (wordBefore prev) (wordAhead s) then k prev s else false
  | Cat r1 r2 => run r1 prev s (fun p rest => run r2 p rest k)
  | Alt r1 r2 => run r1 prev s k || run r2 prev s k
  | Star r1 => iterate (run r1) k (String.length s) prev s
  end.

(** [regex.test(s)] for a pattern without the [g] flag: a match may
    start at any index. *)
Fixpoint search (r : Regex) (prev : option ascii) (s : string) : bool :=
  run r prev s (fun _ _ => true)
  || match s with
     | String a rest => search r (Some a) rest
     | EmptyString => false
     end.

Definition test (r : Regex) (s : string) : bool := search r None s.

Fixpoint lit (w : string) : Regex :=
  match w with
  | EmptyString => Eps
  | String c rest => Cat (Lit c) (lit rest)
  end.

(** The pattern tested first: a word boundary, then one of [english],
    [inglese] or [engl] followed by any number of word characters, then
    a word boundary; flag [i]. *)
Definition englishPattern : Regex :=
  Cat WordBoundary
    (Cat (Alt (lit "english") (Alt (lit "inglese") (Cat (lit "engl") (Star WordChar))))
       WordBoundary).

(** The pattern tested second: the same shape with [italian],
    [italiano] and [ital] followed by word characters. *)
Definition italianPattern : Regex :=
  Cat WordBoundary
    (Cat (Alt (lit "italian") (Alt (lit "italiano") (Cat (lit "ital") (Star WordChar))))
       WordBoundary).

(* ================================================================== *)
(** * components/SupportChat.tsx *)
(* ================================================================== *)

Definition SID_KEY : string := "chat_session_id".

(** [localStorage] *)
Definition Storage : Type := list (string * string).

Fixpoint getItem (store : Storage) (key : string) : option string :=
  match store with
  | [] => None
  | (k, v) :: rest => if k =? key then Some v else getItem rest key
  end.

Fixpoint setItem (store : Storage) (key value : string) : Storage :=
  match store with
  | [] => [(key, value)]
  | (k, v) :: rest =>
      if k =? key then (k, value) :: rest else (k, v) :: setItem rest key value
  end.

(** The blanks [String.prototype.trim] strips from ASCII text: the
    characters 9 to 13 (tab, line feed, vertical tab, form feed, carriage
    return) and the space. *)
Definition isBlank (c : ascii) : bool :=
  between 9 13 c || (N_of_ascii c =? 32)%N.

Fixpoint trimStart (s : string) : string :=
  match s with
  | String c rest => if isBlank c then trimStart rest else s
  | EmptyString => EmptyString
  end.

Fixpoint trimEnd (s : string) : string :=
  match s with
  | EmptyString => EmptyString
  | String c rest =>
      match trimEnd rest with
      | EmptyString => if isBlank c then EmptyString else String c EmptyString
      | kept => String c kept
      end
  end.

Definition trim (s : string) : string := trimEnd (trimStart s).

(** [String.prototype.trim] and [String.prototype.toLowerCase] as the
    engine has them, on every text.  They are what the component calls,
    and a parameter of its embedding. *)
Module Engine.
Record t : Type := make
  { trim : string -> string;
    toLowerCase : string -> string }.
End Engine.

(** The component state held by [useState]. *)
Module View.
Record t : Type := make
  { locale : Locale;
    messages : list Message.t;
    input : string;
    isTyping : bool;
    sessionId : option string }.
End View.

(** The effect keyed on [messages] that detects a language switch; it
    returns the locale in force after the effect.  A user message
    always holds text; [toLowerCase] on anything else would throw. *)
Definition languageEffect (engine : Engine.t) (locale : Locale)
    (messages : list Message.t) : Locale :=
  match last (map Some messages) None with
  | Some lastMessage =>
      match Message.role lastMessage, Message.content lastMessage with
      | user, JStr text =>
          let content := Engine.toLowerCase engine text in
          if test englishPattern content then en
          else if test italianPattern content then it
          else locale
      | _, _ => locale
      end
  | None => locale
  end.

(** State after React has rendered and run the effects keyed on
    [messages]. *)
Definition rendered (engine : Engine.t) (v : View.t) : View.t :=
  View.make (languageEffect engine (View.locale v) (View.messages v))
    (View.messages v) (View.input v) (View.isTyping v) (View.sessionId v).

(** Modelled from the spec: what [ChatClient.start] resolves to, the
    [{session_id, reply}] of the interface table. *)
Module StartResult.
Record t : Type := make
  { session_id : string;
    reply : string }.
End StartResult.

(** Modelled from the spec: the backend as far as sessions go, which
    is the identifiers it has issued. *)
Record Backend : Type := { issued : list string }.

Module World.
Record t : Type := make
  { view : View.t;
    storage : Storage;
    backend : Backend }.
End World.

(** [Date.now()] as read at the four places of [sendMessage] that
    stamp a message: the greeting of a session just opened, the user's
    message, the answer (an error, a reply, or the error of the [catch]
    clause) and the suggestions.  Each is read when its message is made,
    the answer's after the pause of 800 ms; the readings are inputs and
    nothing is assumed of them. *)
Module Clock.
Record t : Type := make
  { atGreeting : float;
    atUserMessage : float;
    atAnswer : float;
    atSuggestions : float }.
End Clock.

(** Calls the component makes on the chat client, in order. *)
Inductive Call : Type :=
| StartCall (request : HttpRequest.t)
| AskCall (request : ChatRequest.t).

Definition appendMessage (v : View.t) (m : Message.t) : View.t :=
  View.make (View.locale v) (View.messages v ++ [m]) (View.input v)
    (View.isTyping v) (View.sessionId v).

(** [sessionId || localStorage.getItem(SID_KEY)] *)
Definition nonEmpty (o : option string) : bool :=
  match o with
  | Some s => negb (s =? "")
  | None => false
  end.

Definition orStored (a b : option string) : option string :=
  if nonEmpty a then a else b.

(** [v?.length] as a condition. *)
Definition hasLength (v : JsVal) : bool :=
  match v with
  | JArr xs => negb (List.length xs =? 0)%nat
  | JStr s => negb (s =? "")
  | JObj fields =>
      match lookup "length" fields with
      | Some n => truthy n
      | None => false
      end
  | _ => false
  end.

Section Conversation.

(** The backend's generator of session identifiers, given those
    already issued, and its greeting. *)
Variable mint : list string -> string.
Variable greeting : string.

(** Template-literal conversion and [JSON.stringify] as text. *)
Variable toText : JsVal -> string.
Variable jsonText : JsVal -> string.

(** The text methods of the engine. *)
Variable engine : Engine.t.

(** Modelled from the spec: the request of [ChatClient.start], which
    the component calls and [chatClient.ts] does not define.  "Issues a
    session-start request with no prior session id"; the interface table
    has it as a POST to [/api/chat/start] without a request body. *)
Definition startRequest : HttpRequest.t :=
  HttpRequest.make "POST" ENDPOINTS.start jsonHeaders None.

(** Modelled from the spec: [ChatClient.start] itself, "expected to
    always succeed in the happy path and return a fresh identifier plus
    an initial greeting".  The backend mints the identifier from those
    it has issued and remembers it. *)
Definition start (b : Backend) : StartResult.t * Backend :=
  let sid := mint (issued b) in
  (StartResult.make sid greeting, Build_Backend (sid :: issued b)).

(** Lines shared by [ensureSidAndGreeting] and [sendMessage]: ask the
    backend for a session, store its identifier under [SID_KEY] and
    show the greeting when there is one. *)
Definition openSession (now : float) (w : World.t)
  : string * World.t :=
  let '(started, backend') := start (World.backend w) in
  let sid := StartResult.session_id started in
  let store := setItem (World.storage w) SID_KEY sid in
  let v := World.view w in
  let v := if truthy (JStr (StartResult.reply started))
           then appendMessage v
                  (Message.make assistant (JStr (StartResult.reply started)) (Some now))
           else v in
  (sid, World.make v store backend').

Definition setSessionId (v : View.t) (sid : option string) : View.t :=
  View.make (View.locale v) (View.messages v) (View.input v)
    (View.isTyping v) sid.

(** The mount effect, run while [sessionId] is not set, with the
    component still mounted when [start] answers. *)
Definition ensureSidAndGreeting (now : float) (w : World.t)
  : World.t * list Call :=
  if nonEmpty (View.sessionId (World.view w)) then (w, [])
  else
    let stored := getItem (World.storage w) SID_KEY in
    if negb (nonEmpty stored) then
      let '(sid, w') := openSession now w in
      (World.make (setSessionId (World.view w') (Some sid))
         (World.storage w') (World.backend w'),
       [StartCall startRequest])
    else
      (World.make (setSessionId (World.view w) stored)
         (World.storage w) (World.backend w), []).

Definition systemMessage (now : float) (text : string) : Message.t :=
  Message.make system (JStr text) (Some now).

(** What the component appends for a response of [askBackend]. *)
Definition showResponse (clock : Clock.t) (v : View.t)
    (response : Completion ChatResponse.t) : View.t :=
  match response with
  | Normal response =>
      if truthy (ChatResponse.error response) then
        appendMessage v
          (systemMessage (Clock.atAnswer clock)
             ("error:" ++ toText (ChatResponse.error response)))
      else
        let v := appendMessage v
                   (Message.make assistant (ChatResponse.reply response)
                      (Some (Clock.atAnswer clock))) in
        if hasLength (ChatResponse.suggestions response) then
          appendMessage v
            (systemMessage (Clock.atSuggestions clock)
               ("suggestions:" ++ jsonText (ChatResponse.suggestions response)))
        else v
  | Throw _ =>
      appendMessage v (systemMessage (Clock.atAnswer clock) "error:unknown_error")
  end.

(** [sendMessage], run to its end without another handler in between.
    The component renders while it waits for [askBackend], which is when
    the language effect sees the new user message; the request carries
    the locale of the render the handler was created in.  Every message
    is stamped with a reading of the clock of its own. *)
Definition sendMessage (fetch : Transport) (clock : Clock.t) (w : World.t)
    (content : string) : World.t * list Call :=
  if negb (truthy (JStr (Engine.trim engine content))) then (w, [])
  else
    let locale := View.locale (World.view w) in
    let sid := orStored (View.sessionId (World.view w))
                 (getItem (World.storage w) SID_KEY) in
    let '(sid, w, calls) :=
      if negb (nonEmpty sid) then
        let '(fresh, w') := openSession (Clock.atGreeting clock) w in
        (fresh,
         World.make (setSessionId (World.view w') (Some fresh))
           (World.storage w') (World.backend w'),
         [StartCall startRequest])
      else
        (match sid with Some s => s | None => "" end, w, []) in
    let userMessage :=
      Message.make user (JStr (Engine.trim engine content))
        (Some (Clock.atUserMessage clock)) in
    let v := appendMessage (World.view w) userMessage in
    let v := View.make (View.locale v) (View.messages v) "" true
               (View.sessionId v) in
    let v := rendered engine v in
    let request :=
      ChatRequest.make (Some (Engine.trim engine content)) None (Some sid)
        (Some locale) in
    let v := showResponse clock v (askBackend fetch request) in
    let v := View.make (View.locale v) (View.messages v) (View.input v) false
               (View.sessionId v) in
    (World.make (rendered engine v) (World.storage w) (World.backend w),
     (calls ++ [AskCall request])%list).

(** A run of sends, each with the backend's answer and the clock. *)
Fixpoint sendAll (w : World.t) (sends : list (Transport * Clock.t * string))
  : World.t * list Call :=
  match sends with
  | [] => (w, [])
  | (fetch, clock, content) :: rest =>
      let '(w', calls) := sendMessage fetch clock w content in
      let '(w'', calls') := sendAll w' rest in
      (w'', (calls ++ calls')%list)
  end.

End Conversation.

(* ================================================================== *)
(** * components/SupportChat.tsx: the other handlers *)
(* ================================================================== *)

(** The dialog state of the component: the escalation dialog, the
    health panel and the last health status. *)
Module Panels.
Record t : Type := make
  { showEscalateDialog : bool;
    showHealthCheck : bool;
    healthStatus : option HealthResult.t }.
End Panels.

(** [[...messages].reverse().find((m) => m.role === "user")] *)
Definition lastUserMessage (messages : list Message.t) : option Message.t :=
  find (fun m => match Message.role m with
                 | user => true
                 | _ => false
                 end) (rev messages).

(** [prev.filter((m) => m !== prev[prev.length - 1])].  The comparison
    is by identity, and every message of the list is an object of its
    own, made by the literal that appended it: only the last position
    goes. *)
Definition dropLast (messages : list Message.t) : list Message.t :=
  removelast messages.

Section Handlers.

Variable mint : list string -> string.
Variable greeting : string.
Variable toText : JsVal -> string.
Variable jsonText : JsVal -> string.
Variable engine : Engine.t.
Variable builtin : JsVal -> string -> JsVal.

(** [handleSubmit] and [handleQuickReply] *)
Definition handleSubmit (fetch : Transport) (clock : Clock.t) (w : World.t)
  : World.t * list Call :=
  sendMessage mint greeting toText jsonText engine fetch clock w
    (View.input (World.view w)).

Definition handleQuickReply (fetch : Transport) (clock : Clock.t) (w : World.t)
    (text : string) : World.t * list Call :=
  sendMessage mint greeting toText jsonText engine fetch clock w text.

(** [handleKeyDown]: Enter without Shift submits. *)
Definition handleKeyDown (fetch : Transport) (clock : Clock.t) (w : World.t)
    (key : string) (shiftKey : bool) : World.t * list Call :=
  if (key =? "Enter") && negb shiftKey then handleSubmit fetch clock w
  else (w, []).

(** [retryLastMessage]: the last message is taken off the list and the
    text of the last user message is sent again.  [sendMessage] trims
    its argument, which throws for a content that is not text; the
    rejection of the handler's promise is not observed. *)
Definition retryLastMessage (fetch : Transport) (clock : Clock.t) (w : World.t)
  : World.t * list Call :=
  match lastUserMessage (View.messages (World.view w)) with
  | Some lastUser =>
      let v := World.view w in
      let v := View.make (View.locale v) (dropLast (View.messages v))
                 (View.input v) (View.isTyping v) (View.sessionId v) in
      let w := World.make v (World.storage w) (World.backend w) in
      match Message.content lastUser with
      | JStr text =>
          sendMessage mint greeting toText jsonText engine fetch clock w text
      | _ => (w, [])
      end
  | None => (w, [])
  end.

(** The request [handleEscalate] hands to the client. *)
Definition escalation (v : View.t) : EscalateRequest.t :=
  EscalateRequest.make (View.sessionId v) "user_requested" (View.messages v).

(** [handleEscalate]; [escalate] does not throw, so the [catch] clause
    has nothing to do. *)
Definition handleEscalate (fetch : Transport) (now : float)
    (v : View.t) (p : Panels.t) : View.t * Panels.t :=
  let p := Panels.make false (Panels.showHealthCheck p) (Panels.healthStatus p) in
  let result := escalate fetch (escalation v) in
  if EscalateResult.success result then
    (appendMessage v
       (Message.make system (t builtin (View.locale v) "escalated") (Some now)), p)
  else
    (appendMessage v
       (Message.make system
          (JStr ("error:"
                 ++ toText (if truthy (EscalateResult.error result)
                            then EscalateResult.error result
                            else JStr "unknown_error")))
          (Some now)), p).

(** [handleHealthCheck] *)
Definition handleHealthCheck (fetch : Transport) (p : Panels.t) : Panels.t :=
  Panels.make (Panels.showEscalateDialog p) true (Some (checkHealth fetch)).

End Handlers.

(* ================================================================== *)
(** * components/SupportChat.tsx: what is rendered *)
(* ================================================================== *)

(** [s.substring(n)] *)
Fixpoint skip (n : nat) (s : string) : string :=
  match n, s with
  | O, _ => s
  | S n', String _ rest => skip n' rest
  | S _, EmptyString => EmptyString
  end.

(** [s.replace(pattern, replacement)] for a text pattern and a
    replacement without [$]: the first occurrence is replaced. *)
Fixpoint replace (s pattern replacement : string) : string :=
  if startsWith s pattern then replacement ++ skip (String.length pattern) s
  else match s with
       | EmptyString => EmptyString
       | String c rest => String c (replace rest pattern replacement)
       end.

(** What [MessageBubble] decides to render for a message. *)
Inductive Bubble : Type :=
| ErrorBubbleOf (errorCode : string)
| QuickRepliesOf (suggestions : JsVal)
| Notice (content : string)
| Speech (isUser : bool) (content : JsVal) (showsTime : bool).

(** The [TypeError] of a call of a method the value does not have. *)
Definition notAFunction (method : string) : Thrown :=
  ErrorObject ("message.content." ++ method ++ " is not a function").

Section Rendering.

Variable builtin : JsVal -> string -> JsVal.

(** [JSON.parse] *)
Variable parseJson : string -> Completion JsVal.

(** [MessageBubble] *)
Definition MessageBubble (message : Message.t) : Completion Bubble :=
  match Message.role message with
  | system =>
      match Message.content message with
      | JStr content =>
          if startsWith content "error:" then
            Normal (ErrorBubbleOf (replace content "error:" ""))
          else if startsWith content "suggestions:" then
            suggestions <- parseJson (replace content "suggestions:" "") ;;
            Normal (QuickRepliesOf suggestions)
          else Normal (Notice content)
      | _ => Throw (notAFunction "startsWith")
      end
  | role =>
      Normal (Speech (match role with user => true | _ => false end)
                (Message.content message)
                (match Message.timestamp message with
                 | Some ts => truthy (JNum ts)
                 | None => false
                 end))
  end.

(** The table [errorMessages] of [ErrorBubble]. *)
Definition errorMessages (locale : Locale) : JsVal :=
  JObj [("network_error", t builtin locale "errorNetwork");
        ("timeout", t builtin locale "errorTimeout");
        ("quota_exceeded", t builtin locale "errorQuota");
        ("billing_not_active", t builtin locale "errorBilling");
        ("invalid_api_key", t builtin locale "errorBilling");
        ("unknown_error", t builtin locale "errorUnknown")].

(** The text [ErrorBubble] shows under its title. *)
Definition ErrorBubble (errorCode : string) (locale : Locale) : JsVal :=
  let errorMessage := member builtin (errorMessages locale) errorCode in
  if truthy errorMessage then errorMessage
  else t builtin locale "errorUnknown".

(** [QuickReplies]: nothing when there is nothing to offer or the
    [length] is zero, else one button per suggestion; [map] is a method
    of arrays only. *)
Definition QuickReplies (suggestions : JsVal) : Completion (option (list JsVal)) :=
  if negb (truthy suggestions) then Normal None
  else
    match suggestions with
    | JArr [] => Normal None
    | JArr labels => Normal (Some labels)
    | JObj fields =>
        match lookup "length" fields with
        | Some (JNum n) =>
            if PrimFloat.eqb n 0%float then Normal None
            else Throw (ErrorObject "suggestions.map is not a function")
        | _ => Throw (ErrorObject "suggestions.map is not a function")
        end
    | _ => Throw (ErrorObject "suggestions.map is not a function")
    end.

(** The health panel: nothing while it is hidden or no status is in;
    else the headline and, under a failure with a truthy error, the
    detail line. *)
Definition healthPanel (locale : Locale) (p : Panels.t)
  : option (JsVal * option JsVal) :=
  if Panels.showHealthCheck p then
    match Panels.healthStatus p with
    | Some status =>
        if HealthResult.ok status then Some (t builtin locale "healthOk", None)
        else Some (t builtin locale "healthFail",
                   if truthy (HealthResult.error status)
                   then Some (HealthResult.error status)
                   else None)
    | None => None
    end
  else None.

End Rendering.

(* ================================================================== *)
(** * Vocabulary of the statements *)
(* ================================================================== *)

(** ** Text *)


(** ** Responses *)

(** The two answers of the network-error classifier. *)
Definition networkFailure : ChatResponse.t :=
  ChatResponse.make (JStr "") JUndefined JUndefined (JStr "network_error") JUndefined.

Definition unknownFailure : ChatResponse.t :=
  ChatResponse.make (JStr "") JUndefined JUndefined (JStr "unknown_error") JUndefined.

(** The exclusive-channel invariant of a response. *)
Definition exclusiveChannel (r : ChatResponse.t) : Prop :=
  ChatResponse.error r = JUndefined
  \/ (ChatResponse.error r <> JUndefined /\ ChatResponse.reply r = JStr "").

(** ** The classifier and the normalisation as tables *)

(** The value a read of [data.k] yields when it does not throw. *)
Definition fieldOf (data : JsVal) (k : string) : JsVal :=
  match data with
  | JObj fields =>
      match lookup k fields with
      | Some v => v
      | None => JUndefined
      end
  | _ => JUndefined
  end.

(** The first candidate that is truthy, else the default. *)
Fixpoint firstTruthy (candidates : list JsVal) (default : JsVal) : JsVal :=
  match candidates with
  | [] => default
  | v :: rest => if truthy v then v else firstTruthy rest default
  end.

(** [null] and [undefined], on which a property read throws. *)
Definition nullish (v : JsVal) : bool :=
  match v with
  | JUndefined | JNull => true
  | _ => false
  end.

(** Error codes with a category of their own. *)
Definition codeCategories : list (string * string) :=
  [("quota_exceeded", "quota_exceeded");
   ("rate_limit", "quota_exceeded");
   ("billing_not_active", "billing_not_active");
   ("payment_required", "billing_not_active");
   ("invalid_api_key", "invalid_api_key");
   ("unauthorized", "invalid_api_key");
   ("timeout", "timeout")].

Fixpoint categoryOfCode (code : string) (table : list (string * string))
  : option string :=
  match table with
  | [] => None
  | (c, category) :: rest =>
      if code =? c then Some category else categoryOfCode code rest
  end.

(** Category by exact code, else by status, else the raw message. *)
Definition category (code : JsVal) (status : N) (message : JsVal) : JsVal :=
  match match code with
        | JStr c => categoryOfCode c codeCategories
        | _ => None
        end with
  | Some known => JStr known
  | None =>
      if (500 <=? status)%N then JStr "server_error"
      else if ((status =? 401) || (status =? 403))%N then JStr "invalid_api_key"
      else if (status =? 429)%N then JStr "quota_exceeded"
      else message
  end.

(** The body the classifier works on: the parsed one, or an empty
    object when parsing failed. *)
Definition errorBody (response : Response.t) : JsVal :=
  match Response.json response with
  | Normal data => data
  | Throw _ => JObj []
  end.

(** The code and the raw message the classifier extracts. *)
Definition extractedCode (response : Response.t) : JsVal :=
  firstTruthy [fieldOf (errorBody response) "code";
               fieldOf (errorBody response) "error_code"]
    (JStr ("http_" ++ showN (Response.status response))).

Definition extractedMessage (response : Response.t) : JsVal :=
  firstTruthy [fieldOf (errorBody response) "error";
               fieldOf (errorBody response) "message"]
    (JStr ("HTTP " ++ showN (Response.status response))).

(** ** The same with the fallbacks taken by the letter *)

(** The first of the named fields the body has, else the default: the
    reading "else" and "if none is present" give when taken by the
    letter. *)
Fixpoint firstPresent (data : JsVal) (keys : list string) (default : JsVal)
  : JsVal :=
  match keys with
  | [] => default
  | k :: rest =>
      match data with
      | JObj fields =>
          match lookup k fields with
          | Some v => v
          | None => firstPresent data rest default
          end
      | _ => default
      end
  end.

(** The classifier and the normalisation with every fallback read
    that way. *)
Definition statedClassifier (response : Response.t) : ChatResponse.t :=
  let status := Response.status response in
  let code := firstPresent (errorBody response) ["code"; "error_code"]
                (JStr ("http_" ++ showN status)) in
  let message := firstPresent (errorBody response) ["error"; "message"]
                   (JStr ("HTTP " ++ showN status)) in
  ChatResponse.make (JStr "") JUndefined JUndefined
    (category code status message) code.

Definition statedNormalization (data : JsVal) (request : ChatRequest.t)
  : ChatResponse.t :=
  ChatResponse.make
    (firstPresent data ["reply"; "message"; "content"] (JStr ""))
    (firstPresent data ["suggestions"; "quick_replies"] (JArr []))
    (firstPresent data ["session_id"; "sessionId"]
       (optional JStr (ChatRequest.sessionId request)))
    JUndefined JUndefined.

(** ** Request bodies *)

(** The properties of a request body. *)
Definition bodyFields (body : JsVal) : list (string * JsVal) :=
  match body with
  | JObj fields => fields
  | _ => []
  end.

Definition localeValue (l : Locale) : JsVal := JStr (localeTag l).

(** ** Text beyond ASCII *)

(** The methods written out for ASCII text, and what the engine's have
    in common with them. *)
Definition asciiEngine : Engine.t := Engine.make trim toLowerCase.

Definition agreesOnAscii (engine : Engine.t) : Prop :=
  forall s, isAscii s = true ->
            Engine.trim engine s = trim s
            /\ Engine.toLowerCase engine s = toLowerCase s.

(** ** Words in a message *)

(** The character right before a position reached by reading [before],
    [prev] being the one before [before]. *)
Fixpoint charBefore (prev : option ascii) (before : string) : option ascii :=
  match before with
  | EmptyString => prev
  | String c rest => charBefore (Some c) rest
  end.

(** [s] has, in any case, the whole word [w]: a run of characters that
    lower-cases to [w] with no word character (letter, digit or
    underscore) right before it or right after it. *)
Definition wholeWord (w s : string) : Prop :=
  exists before found after,
    s = before ++ found ++ after
    /\ toLowerCase found = w
    /\ wordBefore (charBefore None before) = false
    /\ wordAhead after = false.

(** [s] has, in any case, a word that begins with [p]. *)
Definition wordBeginning (p s : string) : Prop :=
  exists before found after,
    s = before ++ found ++ after
    /\ toLowerCase found = p
    /\ wordBefore (charBefore None before) = false.

(** At the front of [s] stands, in any case, [w] followed by no word
    character; respectively [w] followed by anything. *)
Definition wordAt (w s : string) : Prop :=
  exists found after,
    s = found ++ after /\ toLowerCase found = w /\ wordAhead after = false.

Definition stemAt (w s : string) : Prop :=
  exists found after, s = found ++ after /\ toLowerCase found = w.

(** Character by character equality under the [i] flag. *)
Fixpoint sameLetters (found w : string) : bool :=
  match found, w with
  | EmptyString, EmptyString => true
  | String a found', String c w' =>
      (toUpperChar a =? toUpperChar c)%char && sameLetters found' w'
  | _, _ => false
  end.

(** A word of lower-case letters, as the words of the patterns are. *)
Fixpoint lowerLetters (w : string) : bool :=
  match w with
  | EmptyString => true
  | String c w' => between 97 122 c && lowerLetters w'
  end.

Definition properWord (w : string) : Prop := lowerLetters w = true /\ w <> "".

(** The rest of a pattern that ends in a word boundary. *)
Definition atBoundary (prev : option ascii) (s : string) : bool :=
  run WordBoundary prev s (fun _ _ => true).

(** The shape both patterns have. *)
Definition languagePattern (whole1 whole2 stem : string) : Regex :=
  Cat WordBoundary
    (Cat (Alt (lit whole1) (Alt (lit whole2) (Cat (lit stem) (Star WordChar))))
       WordBoundary).

(** The message list right after the user's [text] was appended. *)
Definition withUserMessage (earlier : list Message.t) (text : string)
    (timestamp : option float) : list Message.t :=
  (earlier ++ [Message.make user (JStr text) timestamp])%list.

(** ** Entries of the translation table *)

(** The keys of the table that hold text. *)
Definition textKeys : list string :=
  ["agentName"; "agentRole"; "online"; "slaInfo"; "escalate"; "greeting";
   "placeholder"; "sending"; "escalateTitle"; "escalateMessage";
   "escalateConfirm"; "escalateCancel"; "escalated"; "errorTitle";
   "errorNetwork"; "errorTimeout"; "errorQuota"; "errorBilling";
   "errorUnknown"; "retry"; "healthCheck"; "healthOk"; "healthFail"].

Definition isText (v : JsVal) : bool :=
  match v with
  | JStr _ => true
  | _ => false
  end.

(** ** Sessions *)

(** The identifier [sid] is the one stored under [SID_KEY], and the
    component state holds it or nothing. *)
Definition sessionKept (sid : string) (w : World.t) : Prop :=
  getItem (World.storage w) SID_KEY = Some sid
  /\ (View.sessionId (World.view w) = None
      \/ View.sessionId (World.view w) = Some sid).

(** What a call asks and under which session; nothing for a [start]
    call. *)
Definition asked (call : Call) : option (option string * option string) :=
  match call with
  | AskCall request =>
      Some (ChatRequest.message request, ChatRequest.sessionId request)
  | StartCall _ => None
  end.

(** The messages of a run of sends, trimmed, that are not empty then,
    in the order of the run. *)
Definition sentTexts (engine : Engine.t)
    (sends : list (Transport * Clock.t * string)) : list string :=
  filter (fun text => negb (text =? ""))
    (map (fun send => Engine.trim engine (snd send)) sends).

(** ** Sample inputs *)

(** Responses of the backend. *)
Definition rateLimited : Response.t :=
  Response.make 429 (Normal (JObj [("error_code", JStr "rate_limit")])).

Definition emptyCode : Response.t :=
  Response.make 400
    (Normal (JObj [("code", JStr ""); ("error_code", JStr "timeout")])).

Definition nullBody : Response.t := Response.make 500 (Normal JNull).

Definition emptyReply : Response.t :=
  Response.make 200
    (Normal (JObj [("reply", JStr ""); ("message", JStr "hello")])).

Definition notJson : Response.t :=
  Response.make 200 (Throw (ErrorObject "Unexpected end of JSON input")).

(** Requests of the component. *)
Definition someRequest : ChatRequest.t :=
  ChatRequest.make (Some "hi") None (Some "abc") (Some en).

Definition emptyMessage : ChatRequest.t :=
  ChatRequest.make (Some "") None (Some "abc") (Some en).

Definition noSession : ChatRequest.t :=
  ChatRequest.make (Some "hi") None None (Some en).

(** A generator of fresh identifiers: longer than everything issued. *)
Fixpoint joined (known : list string) : string :=
  match known with
  | [] => ""
  | s :: rest => s ++ joined rest
  end.

Definition longerId (known : list string) : string := String "s" (joined known).

(** A component that has just been mounted on a fresh backend, and a
    backend that answers every request. *)
Definition blankWorld : World.t :=
  World.make (View.make en [] "" false None) [] (Build_Backend []).

Definition alwaysFine : Transport :=
  fun _ => Normal (Response.make 200 (Normal (JObj [("reply", JStr "Va bene")]))).

(** The clock of a send that starts at [start] milliseconds and gets
    its answer at once: the pause puts the answer 800 ms later. *)
Definition clockAt (start : float) : Clock.t :=
  Clock.make start (start + 1)%float (start + 801)%float (start + 802)%float.

(** ** Further vocabulary: the client *)

(** [null] or [undefined] as the parsed body. *)
Definition nullBodyOf (response : Response.t) (base : string) : Prop :=
  (base = "null" /\ Response.json response = Normal JNull)
  \/ (base = "undefined" /\ Response.json response = Normal JUndefined).

(** The category read off the status alone. *)
Definition statusCategory (status : N) : JsVal :=
  if (500 <=? status)%N then JStr "server_error"
  else if ((status =? 401) || (status =? 403))%N then JStr "invalid_api_key"
  else if (status =? 429)%N then JStr "quota_exceeded"
  else JStr ("HTTP " ++ showN status).

(** A 2xx response with a body that can be read. *)
Definition readable (response : Response.t) : Prop :=
  Response.ok response = true
  /\ exists data, Response.json response = Normal data /\ nullish data = false.

(** ** Further vocabulary: the component *)

Fixpoint allBlank (s : string) : bool :=
  match s with
  | EmptyString => true
  | String c rest => isBlank c && allBlank rest
  end.

Definition isUser (m : Message.t) : bool :=
  match Message.role m with
  | user => true
  | _ => false
  end.

(** [older] is the beginning of [newer]. *)
Definition extends (older newer : list Message.t) : Prop :=
  exists added, newer = (older ++ added)%list.

(** Whether a send has to open a session first, the identifier it then
    works with, and the greeting it shows. *)
Definition needsSession (w : World.t) : bool :=
  negb (nonEmpty (orStored (View.sessionId (World.view w))
                    (getItem (World.storage w) SID_KEY))).

Definition sessionFor (mint : list string -> string) (w : World.t) : string :=
  if needsSession w then mint (issued (World.backend w))
  else match orStored (View.sessionId (World.view w))
               (getItem (World.storage w) SID_KEY) with
       | Some sid => sid
       | None => ""
       end.

Definition greetingFor (greeting : string) (now : float) (w : World.t)
  : list Message.t :=
  if needsSession w && truthy (JStr greeting)
  then [Message.make assistant (JStr greeting) (Some now)]
  else [].

Definition requestFor (mint : list string -> string) (w : World.t)
    (text : string) : ChatRequest.t :=
  ChatRequest.make (Some text) None (Some (sessionFor mint w))
    (Some (View.locale (World.view w))).

Definition userMessage (now : float) (text : string) : Message.t :=
  Message.make user (JStr text) (Some now).

(** The messages shown for an answer of [askBackend]. *)
Definition answerMessages (toText jsonText : JsVal -> string)
    (shown later : float) (response : Completion ChatResponse.t)
  : list Message.t :=
  match response with
  | Normal r =>
      if truthy (ChatResponse.error r) then
        [systemMessage shown ("error:" ++ toText (ChatResponse.error r))]
      else
        Message.make assistant (ChatResponse.reply r) (Some shown)
        :: (if hasLength (ChatResponse.suggestions r)
            then [systemMessage later
                    ("suggestions:" ++ jsonText (ChatResponse.suggestions r))]
            else [])
  | Throw _ => [systemMessage shown "error:unknown_error"]
  end.

(** A system message that [MessageBubble] renders as an error. *)
Definition isErrorMessage (m : Message.t) : bool :=
  match Message.role m, Message.content m with
  | system, JStr content => startsWith content "error:"
  | _, _ => false
  end.

(** The error codes [ErrorBubble] has a text for. *)
Definition knownErrorCodes : list string :=
  ["network_error"; "timeout"; "quota_exceeded"; "billing_not_active";
   "invalid_api_key"; "unknown_error"].

(** Sample inputs of the component. *)
Definition plainText (v : JsVal) : string :=
  match v with
  | JStr s => s
  | _ => ""
  end.

Definition noBuiltin : JsVal -> string -> JsVal := fun _ _ => JUndefined.

Definition serverDown : Transport :=
  fun _ => Normal (Response.make 503 (Throw (ErrorObject "Unexpected token <"))).

Definition italianWorld : World.t :=
  World.make (View.make it [] "" false (Some "abc")) [(SID_KEY, "abc")]
    (Build_Backend ["abc"]).

Definition failedWorld : World.t :=
  World.make
    (View.make en
       [Message.make user (JStr "hello") (Some 1%float);
        Message.make system (JStr "error:server_error") (Some 2%float)]
       "" false (Some "abc"))
    [(SID_KEY, "abc")] (Build_Backend ["abc"]).

(* ================================================================== *)
(** * Properties of the chat client *)
(* ================================================================== *)

Lemma startsWith_true_iff (s p : string) :
  startsWith s p = true <-> exists rest, s = p ++ rest.
Proof.
  revert s; induction p as [|c p IH]; intros s; simpl.
  - split; [intros _; now exists s | intros _; reflexivity].
  - destruct s as [|d s].
    + split; [discriminate | intros [rest H]; discriminate].
    + rewrite andb_true_iff, IH, Ascii.eqb_eq. split.
      * intros [-> [rest ->]]. now exists rest.
      * intros [rest H]. inversion H. split; [reflexivity | now exists rest].
Qed.



Lemma handleNetworkError_cases (failure : Thrown) :
  handleNetworkError failure = networkFailure
  \/ handleNetworkError failure = unknownFailure.
Proof.
  unfold handleNetworkError.
  destruct (includes _ "fetch" || includes _ "network"); auto.
Qed.

Lemma handleNetworkError_exclusive (failure : Thrown) :
  exclusiveChannel (handleNetworkError failure).
Proof.
  destruct (handleNetworkError_cases failure) as [-> | ->];
    right; split; [discriminate | reflexivity | discriminate | reflexivity].
Qed.

Lemma orElse_truthy_default (a : Completion JsVal) (d v : JsVal) :
  truthy d = true -> a ||| Normal d = Normal v -> truthy v = true.
Proof.
  intros Hd. unfold orElse, bind. destruct a as [x|e]; [|discriminate].
  destruct (truthy x) eqn:Hx; intros H; inversion H; subst; assumption.
Qed.

Lemma handleErrorResponse_shape (response : Response.t) (r : ChatResponse.t) :
  handleErrorResponse response = Normal r ->
  ChatResponse.reply r = JStr "" /\ truthy (ChatResponse.error r) = true.
Proof.
  unfold handleErrorResponse.
  set (data := match Response.json response with
               | Normal d => d | Throw _ => JObj [] end).
  destruct (dataField data "code" ||| dataField data "error_code"
            ||| Normal (JStr ("http_" ++ showN (Response.status response))))
    as [code|e]; [|discriminate].
  destruct (dataField data "error" ||| dataField data "message"
            ||| Normal (JStr ("HTTP " ++ showN (Response.status response))))
    as [msg|e] eqn:Hmsg; [|discriminate].
  apply orElse_truthy_default in Hmsg; [|reflexivity].
  cbn [bind]. intros H; inversion H; subst; clear H. cbn.
  split; [reflexivity|].
  repeat match goal with
         | |- truthy (if ?c then _ else _) = true => destruct c; try reflexivity
         end.
  exact Hmsg.
Qed.

Lemma truthy_defined (v : JsVal) : truthy v = true -> v <> JUndefined.
Proof. intros H ->; discriminate. Qed.

(** C4. Every response the client produces, on each of its three
    paths, either has no [error] or has an [error] and the empty
    [reply]. *)
Theorem client_responses_exclusive :
  (forall fetch request r,
     askBackend fetch request = Normal r -> exclusiveChannel r)
  /\ (forall response r,
        handleErrorResponse response = Normal r -> exclusiveChannel r)
  /\ (forall failure, exclusiveChannel (handleNetworkError failure)).
Proof.
  assert (Hcls : forall response r,
             handleErrorResponse response = Normal r -> exclusiveChannel r).
  { intros response r H. apply handleErrorResponse_shape in H as [Hr He].
    right. split; [now apply truthy_defined | exact Hr]. }
  split; [|split; [exact Hcls | exact handleNetworkError_exclusive]].
  intros fetch request r. unfold askBackend.
  destruct (fetch (chatRequest request)) as [response|failure].
  - destruct (Response.ok response); cbn [negb].
    + intros H; inversion H; subst; clear H.
      destruct (Response.json response) as [data|failure]; cbn [bind tryCatch];
        [|apply handleNetworkError_exclusive].
      repeat match goal with
             | |- exclusiveChannel (tryCatch (bind ?c _) _) =>
                 destruct c; cbn [bind tryCatch];
                 [|apply handleNetworkError_exclusive]
             end.
      left; reflexivity.
    + apply Hcls.
  - intros H; inversion H. apply handleNetworkError_exclusive.
Qed.

(** A response of each path, with the invariant it satisfies. *)
Lemma client_responses_exclusive_witness :
  exclusiveChannel
    (ChatResponse.make (JStr "Hi") (JArr []) (JStr "abc") JUndefined JUndefined)
  /\ exclusiveChannel
       (ChatResponse.make (JStr "") JUndefined JUndefined
          (JStr "quota_exceeded") (JStr "rate_limit"))
  /\ exclusiveChannel networkFailure.
Proof.
  destruct client_responses_exclusive as [Hask [Hcls Hnet]].
  split; [|split].
  - apply (Hask
             (fun _ => Normal (Response.make 200
                                 (Normal (JObj [("reply", JStr "Hi")]))))
             (ChatRequest.make (Some "hello") None (Some "abc") (Some en))).
    reflexivity.
  - apply (Hcls (Response.make 429
                   (Normal (JObj [("error_code", JStr "rate_limit")])))).
    reflexivity.
  - apply (Hnet (ErrorObject "Failed to fetch")).
Defined.

Lemma dataField_fieldOf (data : JsVal) (k : string) :
  nullish data = false -> dataField data k = Normal (fieldOf data k).
Proof. destruct data; cbn; intros H; try reflexivity; discriminate. Qed.

Ltac chain_cases :=
  unfold orElse, bind; cbn [firstTruthy];
  repeat match goal with
         | |- context [truthy ?v] =>
             let E := fresh "E" in
             destruct (truthy v) eqn:E; rewrite ?E; try reflexivity
         end.

Lemma chain2 (data : JsVal) (k1 k2 : string) (d : JsVal) :
  nullish data = false ->
  dataField data k1 ||| dataField data k2 ||| Normal d
  = Normal (firstTruthy [fieldOf data k1; fieldOf data k2] d).
Proof.
  intros H. rewrite !dataField_fieldOf by exact H.
  generalize (fieldOf data k1) (fieldOf data k2). intros v1 v2. chain_cases.
Qed.

Lemma chain3 (data : JsVal) (k1 k2 k3 : string) (d : JsVal) :
  nullish data = false ->
  dataField data k1 ||| dataField data k2 ||| dataField data k3 ||| Normal d
  = Normal (firstTruthy [fieldOf data k1; fieldOf data k2; fieldOf data k3] d).
Proof.
  intros H. rewrite !dataField_fieldOf by exact H.
  generalize (fieldOf data k1) (fieldOf data k2) (fieldOf data k3).
  intros v1 v2 v3. chain_cases.
Qed.

Lemma switch_category (code : JsVal) (status : N) (message : JsVal) :
  (if strictEq code "quota_exceeded" || strictEq code "rate_limit" then
     JStr "quota_exceeded"
   else if strictEq code "billing_not_active" || strictEq code "payment_required" then
     JStr "billing_not_active"
   else if strictEq code "invalid_api_key" || strictEq code "unauthorized" then
     JStr "invalid_api_key"
   else if strictEq code "timeout" then
     JStr "timeout"
   else if (500 <=? status)%N then
     JStr "server_error"
   else if ((status =? 401) || (status =? 403))%N then
     JStr "invalid_api_key"
   else if (status =? 429)%N then
     JStr "quota_exceeded"
   else message)
  = category code status message.
Proof.
  unfold category, strictEq.
  destruct code as [| |b|x|c|xs|fields]; try reflexivity.
  cbn [categoryOfCode codeCategories].
  repeat match goal with
         | |- context [c =? ?label] => destruct (c =? label); cbn [orb]
         end; reflexivity.
Qed.

Lemma errorBody_nullish (response : Response.t) :
  (forall data, Response.json response = Normal data -> nullish data = false) ->
  nullish (errorBody response) = false.
Proof.
  unfold errorBody. intros H.
  destruct (Response.json response) as [data|failure]; [now apply H | reflexivity].
Qed.

(** C1, as stated, fails: with body [{code: "", error_code: "timeout"}]
    and status 400 the classifier passes over the empty [code] and answers
    [timeout], where the body's [code] field taken by the letter gives the
    code [""] and the message "HTTP 400"; and on the body [null] it throws
    where the wording promises [server_error]. *)
Lemma handleErrorResponse_not_as_stated :
  handleErrorResponse emptyCode
  = Normal (ChatResponse.make (JStr "") JUndefined JUndefined
              (JStr "timeout") (JStr "timeout"))
  /\ statedClassifier emptyCode
     = ChatResponse.make (JStr "") JUndefined JUndefined
         (JStr "HTTP 400") (JStr "")
  /\ handleErrorResponse emptyCode <> Normal (statedClassifier emptyCode)
  /\ handleErrorResponse nullBody = Throw (nullishRead "null" "code")
  /\ statedClassifier nullBody
     = ChatResponse.make (JStr "") JUndefined JUndefined
         (JStr "server_error") (JStr "http_500").
Proof.
  repeat split; try reflexivity. cbv. discriminate.
Qed.

(** C1, amended. For every response whose body does not parse, or
    parses to anything but [null], the classifier returns the empty
    reply, the code that is the first truthy one of the body's [code]
    and [error_code], else "http_" followed by the status, and the
    category found by exact code match, else by status (at least 500;
    401 or 403; 429), else the first truthy one of the body's [error]
    and [message], else "HTTP " followed by the status.  A 429 with body
    [{error_code: "rate_limit"}] gives
    [{reply: "", error: "quota_exceeded", code: "rate_limit"}], and a 500
    whose body does not parse gives [server_error]. *)
Theorem handleErrorResponse_classification :
  (forall response,
     (forall data, Response.json response = Normal data -> nullish data = false) ->
     handleErrorResponse response
     = Normal (ChatResponse.make (JStr "") JUndefined JUndefined
                 (category (extractedCode response) (Response.status response)
                    (extractedMessage response))
                 (extractedCode response)))
  /\ handleErrorResponse rateLimited
     = Normal (ChatResponse.make (JStr "") JUndefined JUndefined
                 (JStr "quota_exceeded") (JStr "rate_limit"))
  /\ (forall failure,
        handleErrorResponse (Response.make 500 (Throw failure))
        = Normal (ChatResponse.make (JStr "") JUndefined JUndefined
                    (JStr "server_error") (JStr "http_500"))).
Proof.
  split; [|split; reflexivity].
  intros response Hbody. apply errorBody_nullish in Hbody.
  unfold handleErrorResponse. fold (errorBody response).
  rewrite !chain2 by exact Hbody. cbn [bind].
  fold (extractedCode response) (extractedMessage response).
  now rewrite switch_category.
Qed.

Lemma handleErrorResponse_classification_witness :
  handleErrorResponse
    (Response.make 403 (Normal (JObj [("message", JStr "Forbidden")])))
  = Normal (ChatResponse.make (JStr "") JUndefined JUndefined
              (JStr "invalid_api_key") (JStr "http_403")).
Proof.
  apply (proj1 handleErrorResponse_classification
           (Response.make 403 (Normal (JObj [("message", JStr "Forbidden")])))).
  intros data H. inversion H. reflexivity.
Defined.

(** C2, as stated, fails: a 2xx body holding both [reply: ""] and
    [message: "hello"] yields "hello" and not the [reply] value, and a
    2xx response whose body is not JSON yields a response with an
    [error]. *)
Lemma askBackend_not_as_stated :
  askBackend (fun _ => Normal emptyReply) someRequest
  = Normal (ChatResponse.make (JStr "hello") (JArr []) (JStr "abc")
              JUndefined JUndefined)
  /\ statedNormalization
       (JObj [("reply", JStr ""); ("message", JStr "hello")]) someRequest
     = ChatResponse.make (JStr "") (JArr []) (JStr "abc") JUndefined JUndefined
  /\ Response.ok notJson = true
  /\ askBackend (fun _ => Normal notJson) someRequest = Normal unknownFailure.
Proof. repeat split. Qed.

(** C2, amended. For every 2xx response whose body parses to a value
    other than [null], [askBackend] returns: as [reply] the first truthy
    one of the body's [reply], [message] and [content], else the empty
    text; as [suggestions] the first truthy one of [suggestions] and
    [quick_replies], else the empty list; as [sessionId] the first truthy
    one of [session_id] and [sessionId], else the request's; and no
    [error]. *)
Theorem askBackend_success_normalization
    (fetch : Transport) (request : ChatRequest.t)
    (response : Response.t) (data : JsVal) :
  fetch (chatRequest request) = Normal response ->
  Response.ok response = true ->
  Response.json response = Normal data ->
  nullish data = false ->
  askBackend fetch request
  = Normal (ChatResponse.make
              (firstTruthy [fieldOf data "reply"; fieldOf data "message";
                            fieldOf data "content"] (JStr ""))
              (firstTruthy [fieldOf data "suggestions";
                            fieldOf data "quick_replies"] (JArr []))
              (firstTruthy [fieldOf data "session_id"; fieldOf data "sessionId"]
                 (optional JStr (ChatRequest.sessionId request)))
              JUndefined JUndefined).
Proof.
  intros Hfetch Hok Hjson Hdata. unfold askBackend.
  rewrite Hfetch, Hok, Hjson. cbn [negb bind].
  rewrite chain3, !chain2 by exact Hdata. reflexivity.
Qed.

Lemma askBackend_success_normalization_witness :
  askBackend
    (fun _ => Normal (Response.make 200
                        (Normal (JObj [("message", JStr "Hi");
                                       ("quick_replies", JArr [JStr "Yes"]);
                                       ("sessionId", JStr "s1")]))))
    someRequest
  = Normal (ChatResponse.make (JStr "Hi") (JArr [JStr "Yes"]) (JStr "s1")
              JUndefined JUndefined).
Proof.
  apply (askBackend_success_normalization
           (fun _ => Normal (Response.make 200
                               (Normal (JObj [("message", JStr "Hi");
                                              ("quick_replies", JArr [JStr "Yes"]);
                                              ("sessionId", JStr "s1")]))))
           someRequest
           (Response.make 200
              (Normal (JObj [("message", JStr "Hi");
                             ("quick_replies", JArr [JStr "Yes"]);
                             ("sessionId", JStr "s1")])))
           (JObj [("message", JStr "Hi");
                  ("quick_replies", JArr [JStr "Yes"]);
                  ("sessionId", JStr "s1")]));
    reflexivity.
Defined.

(** A 2xx response whose body cannot be read, or is [null], ends in the
    network-error classifier. *)
Lemma askBackend_unreadable_body (fetch : Transport) (request : ChatRequest.t)
    (response : Response.t) :
  fetch (chatRequest request) = Normal response ->
  Response.ok response = true ->
  (forall failure,
     Response.json response = Throw failure ->
     askBackend fetch request = Normal (handleNetworkError failure))
  /\ (Response.json response = Normal JNull ->
      askBackend fetch request
      = Normal (handleNetworkError (nullishRead "null" "reply"))).
Proof.
  intros Hfetch Hok. unfold askBackend. rewrite Hfetch, Hok.
  split; [intros failure H | intros H]; now rewrite H.
Qed.

(** C3, as stated, fails: a request whose single message is the empty
    text, with no message list, gets a body without [message]; and for
    a request without session identifier the document that is sent has
    no [session_id] key. *)
Lemma chatBody_not_as_stated :
  ChatRequest.message emptyMessage = Some ""
  /\ ChatRequest.messages emptyMessage = None
  /\ lookup "message" (bodyFields (chatBody emptyMessage)) = None
  /\ HttpRequest.body (chatRequest noSession)
     = Some (JObj [("locale", JStr "en"); ("message", JStr "hi")]).
Proof. repeat split. Qed.

(** C3, amended. The body object built for a request carries
    [messages] and no [message] whenever the request's list is there and
    not empty; carries [message] and no [messages] when the list is
    missing or empty and the single message is a non-empty text; and
    always has the keys [session_id] and [locale] with the request's
    values, of which the serialised document keeps those that are
    defined. *)
Theorem chatBody_fields (request : ChatRequest.t) :
  (forall ms,
     ChatRequest.messages request = Some ms -> ms <> [] ->
     lookup "messages" (bodyFields (chatBody request)) = Some (transcriptValue ms)
     /\ lookup "message" (bodyFields (chatBody request)) = None)
  /\ (forall m,
        ChatRequest.messages request = None
        \/ ChatRequest.messages request = Some [] ->
        ChatRequest.message request = Some m -> m <> "" ->
        lookup "message" (bodyFields (chatBody request)) = Some (JStr m)
        /\ lookup "messages" (bodyFields (chatBody request)) = None)
  /\ lookup "session_id" (bodyFields (chatBody request))
     = Some (optional JStr (ChatRequest.sessionId request))
  /\ lookup "locale" (bodyFields (chatBody request))
     = Some (optional localeValue (ChatRequest.locale request))
  /\ lookup "session_id" (bodyFields (jsonDocument (chatBody request)))
     = option_map JStr (ChatRequest.sessionId request)
  /\ lookup "locale" (bodyFields (jsonDocument (chatBody request)))
     = option_map localeValue (ChatRequest.locale request).
Proof.
  destruct request as [message messages sessionId locale]. cbn [ChatRequest.message
    ChatRequest.messages ChatRequest.sessionId ChatRequest.locale].
  split; [|split].
  - intros ms -> Hne. destruct ms as [|m ms]; [contradiction|]. split; reflexivity.
  - intros m Hms -> Hm. apply String.eqb_neq in Hm.
    unfold chatBody. cbn [ChatRequest.message ChatRequest.messages optional truthy].
    rewrite Hm. destruct Hms as [-> | ->]; split; reflexivity.
  - unfold chatBody. cbn [ChatRequest.message ChatRequest.messages
      ChatRequest.sessionId ChatRequest.locale].
    destruct messages as [[|m0 ms]|]; destruct message as [m|];
      try destruct (m =? "") eqn:Hm; cbn [optional truthy andb negb]; rewrite ?Hm;
      destruct sessionId, locale; repeat split.
Qed.

Lemma chatBody_fields_witness :
  lookup "messages"
    (bodyFields (chatBody (ChatRequest.make (Some "hi")
                             (Some [Message.make user (JStr "hello") None])
                             None (Some it))))
  = Some (transcriptValue [Message.make user (JStr "hello") None])
  /\ lookup "message" (bodyFields (chatBody someRequest)) = Some (JStr "hi").
Proof.
  split.
  - apply (proj1 (chatBody_fields
                    (ChatRequest.make (Some "hi")
                       (Some [Message.make user (JStr "hello") None])
                       None (Some it)))
             [Message.make user (JStr "hello") None]);
      [reflexivity | discriminate].
  - apply (proj1 (proj2 (chatBody_fields someRequest)) "hi");
      [left; reflexivity | reflexivity | discriminate].
Defined.

(** C6. The claim fails on a response that is not 2xx and whose body
    is the JSON value [null].  The error classifier computes no category
    there: reading [code] off the body throws.  [escalate] catches that
    and reports the category the network-error classifier gives the
    [TypeError], [unknown_error], although the transport did not fail.
    The sibling case of a body that is not JSON is guarded, and there
    the same status is reported as [server_error]. *)
Theorem escalate_null_body (request : EscalateRequest.t) :
  Response.ok nullBody = false
  /\ (exists failure, handleErrorResponse nullBody = Throw failure)
  /\ escalate (fun _ => Normal nullBody) request
     = EscalateResult.make false (JStr "unknown_error")
  /\ escalate
       (fun _ => Normal (Response.make 500 (Throw (ErrorObject "Unexpected token <"))))
       request
     = EscalateResult.make false (JStr "server_error").
Proof.
  split; [reflexivity|]. split; [eexists; reflexivity|].
  split; reflexivity.
Qed.

(** C7. [checkHealth] reports [ok] exactly when the response was 2xx,
    and then without an [error]; for any other response with status [s]
    the error is "HTTP " followed by [s], whatever the body holds; for a
    transport failure it is the message of the thrown [Error], and
    "Network error" when something else was thrown. *)
Theorem checkHealth_result (fetch : Transport) :
  (HealthResult.ok (checkHealth fetch) = true
   <-> exists response,
         fetch healthRequest = Normal response /\ Response.ok response = true)
  /\ (HealthResult.ok (checkHealth fetch) = true ->
      checkHealth fetch = HealthResult.make true JUndefined)
  /\ (forall response,
        fetch healthRequest = Normal response ->
        Response.ok response = false ->
        checkHealth fetch
        = HealthResult.make false
            (JStr ("HTTP " ++ showN (Response.status response))))
  /\ (forall message,
        fetch healthRequest = Throw (ErrorObject message) ->
        checkHealth fetch = HealthResult.make false (JStr message))
  /\ (forall thrown,
        fetch healthRequest = Throw (NonError thrown) ->
        checkHealth fetch = HealthResult.make false (JStr "Network error")).
Proof.
  unfold checkHealth.
  destruct (fetch healthRequest) as [response|failure].
  - destruct (Response.ok response) eqn:Hok; cbn [HealthResult.ok].
    + repeat split; try reflexivity; try discriminate.
      * intros _. now exists response.
      * intros r H. inversion H; subst. congruence.
    + repeat split; try discriminate.
      * intros [r [H Hr]]. inversion H; subst. congruence.
      * intros r H _. now inversion H.
  - repeat split; try discriminate.
    + intros [r [H _]]. discriminate.
    + intros m H. now inversion H.
    + intros v H. now inversion H.
Qed.

Lemma checkHealth_result_witness :
  checkHealth (fun _ => Normal (Response.make 503 (Normal (JObj [("code", JStr "timeout")]))))
  = HealthResult.make false (JStr "HTTP 503")
  /\ checkHealth (fun _ => Throw (ErrorObject "Failed to fetch"))
     = HealthResult.make false (JStr "Failed to fetch")
  /\ checkHealth (fun _ => Throw (NonError (JStr "offline")))
     = HealthResult.make false (JStr "Network error")
  /\ checkHealth (fun _ => Normal (Response.make 200 (Normal (JStr "ok"))))
     = HealthResult.make true JUndefined.
Proof.
  split; [|split; [|split]].
  - apply (proj1 (proj2 (proj2
             (checkHealth_result
                (fun _ => Normal (Response.make 503
                                    (Normal (JObj [("code", JStr "timeout")])))))))
             (Response.make 503 (Normal (JObj [("code", JStr "timeout")]))));
      reflexivity.
  - apply (proj1 (proj2 (proj2 (proj2
             (checkHealth_result (fun _ => Throw (ErrorObject "Failed to fetch"))))))).
    reflexivity.
  - apply (proj2 (proj2 (proj2 (proj2
             (checkHealth_result (fun _ => Throw (NonError (JStr "offline")))))))
             (JStr "offline")).
    reflexivity.
  - apply (proj1 (proj2
             (checkHealth_result
                (fun _ => Normal (Response.make 200 (Normal (JStr "ok"))))))).
    reflexivity.
Defined.

(* ================================================================== *)
(** * Properties of the language effect *)
(* ================================================================== *)

Ltac each_char a := destruct a as [[] [] [] [] [] [] [] []].

Lemma toLowerChar_idempotent (a : ascii) :
  toLowerChar (toLowerChar a) = toLowerChar a.
Proof. each_char a; reflexivity. Qed.

Lemma isWordChar_toLowerChar (a : ascii) :
  isWordChar (toLowerChar a) = isWordChar a.
Proof. each_char a; reflexivity. Qed.

Lemma upper_eq_lower (c a : ascii) :
  between 97 122 c = true ->
  (toUpperChar a =? toUpperChar c)%char = (toLowerChar a =? c)%char.
Proof.
  intros Hc. each_char c; try discriminate Hc; clear Hc; each_char a; reflexivity.
Qed.

Lemma lowerLetter_isWordChar (c : ascii) :
  between 97 122 c = true -> isWordChar c = true.
Proof. intros H. unfold isWordChar. rewrite H. now rewrite orb_true_r. Qed.

Lemma sameLetters_iff (found w : string) :
  lowerLetters w = true ->
  sameLetters found w = true <-> toLowerCase found = w.
Proof.
  revert w; induction found as [|a found IH]; intros [|c w] Hw; cbn;
    try (split; [discriminate | discriminate]); try tauto.
  cbn in Hw. apply andb_true_iff in Hw as [Hc Hw].
  rewrite andb_true_iff, (upper_eq_lower c a Hc), Ascii.eqb_eq, (IH w Hw).
  split; [intros [-> ->]; reflexivity | intros H; now inversion H].
Qed.

Lemma toLowerCase_app (a b : string) :
  toLowerCase (a ++ b) = toLowerCase a ++ toLowerCase b.
Proof. induction a as [|c a IH]; cbn; [reflexivity | now rewrite IH]. Qed.

Lemma toLowerCase_app_inv (s a b : string) :
  toLowerCase s = a ++ b ->
  exists a' b', s = a' ++ b' /\ toLowerCase a' = a /\ toLowerCase b' = b.
Proof.
  revert s; induction a as [|c a IH]; intros s H.
  - now exists EmptyString, s.
  - destruct s as [|d s]; [discriminate|]. cbn in H. inversion H as [[Hd Hs]].
    destruct (IH s Hs) as [a' [b' [-> [Ha Hb]]]].
    exists (String d a'), b'. cbn. now rewrite Ha, Hb.
Qed.

Lemma toLowerCase_idempotent (s : string) :
  toLowerCase (toLowerCase s) = toLowerCase s.
Proof.
  induction s as [|c s IH]; cbn; [reflexivity|].
  now rewrite toLowerChar_idempotent, IH.
Qed.

Lemma wordAhead_toLowerCase (s : string) :
  wordAhead (toLowerCase s) = wordAhead s.
Proof. destruct s as [|c s]; cbn; [reflexivity | apply isWordChar_toLowerChar]. Qed.

Lemma wordBefore_charBefore_toLowerCase (prev : option ascii) (before : string) :
  wordBefore (charBefore (option_map toLowerChar prev) (toLowerCase before))
  = wordBefore (charBefore prev before).
Proof.
  revert prev; induction before as [|c before IH]; intros prev; cbn.
  - destruct prev as [a|]; cbn; [apply isWordChar_toLowerChar | reflexivity].
  - apply (IH (Some c)).
Qed.

Lemma wordBefore_toLowerCase (before : string) :
  wordBefore (charBefore None (toLowerCase before))
  = wordBefore (charBefore None before).
Proof. exact (wordBefore_charBefore_toLowerCase None before). Qed.

(** A run that lower-cases to a non-empty word of lower-case letters
    starts and ends with a word character. *)
Lemma letters_wordAhead (found w after : string) :
  lowerLetters w = true -> w <> "" -> toLowerCase found = w ->
  wordAhead (found ++ after) = true.
Proof.
  intros Hw Hne H. destruct found as [|a found]; cbn in H; subst w;
    [contradiction|]. cbn in Hw. apply andb_true_iff in Hw as [Ha _].
  cbn. rewrite <- isWordChar_toLowerChar. now apply lowerLetter_isWordChar.
Qed.

Lemma letters_wordBefore (found w : string) (prev : option ascii) :
  lowerLetters w = true -> w <> "" -> toLowerCase found = w ->
  wordBefore (charBefore prev found) = true.
Proof.
  revert w prev; induction found as [|a found IH]; intros w prev Hw Hne H;
    cbn in H; subst w; [contradiction|].
  cbn in Hw. apply andb_true_iff in Hw as [Ha Hw]. cbn.
  destruct found as [|b found].
  - cbn. rewrite <- isWordChar_toLowerChar. now apply lowerLetter_isWordChar.
  - apply (IH (toLowerCase (String b found))); [exact Hw | discriminate | reflexivity].
Qed.

(** ** What the matcher accepts *)

Lemma run_lit (w : string) (prev : option ascii) (s : string)
    (k : option ascii -> string -> bool) :
  run (lit w) prev s k = true
  <-> exists found after,
        s = found ++ after
        /\ sameLetters found w = true
        /\ k (charBefore prev found) after = true.
Proof.
  revert prev s; induction w as [|c w IH]; intros prev s; cbn [lit run].
  - split.
    + intros H. now exists EmptyString, s.
    + intros [[|a found] [after [-> [Hs Hk]]]]; [exact Hk | discriminate].
  - destruct s as [|a rest].
    + split; [discriminate|].
      intros [[|a found] [after [H [Hs Hk]]]]; discriminate.
    + destruct (toUpperChar a =? toUpperChar c)%char eqn:Hac.
      * rewrite IH. split.
        -- intros [found [after [-> [Hs Hk]]]].
           exists (String a found), after. cbn. now rewrite Hac.
        -- intros [[|a' found] [after [H [Hs Hk]]]]; [discriminate|].
           cbn in H. inversion H; subst. cbn in Hs.
           apply andb_true_iff in Hs as [_ Hs]. now exists found, after.
      * split; [discriminate|].
        intros [[|a' found] [after [H [Hs Hk]]]]; [discriminate|].
        cbn in H. inversion H; subst. cbn in Hs. rewrite Hac in Hs. discriminate.
Qed.

Lemma atBoundary_xorb (prev : option ascii) (s : string) :
  atBoundary prev s = xorb (wordBefore prev) (wordAhead s).
Proof. unfold atBoundary. cbn. now destruct (xorb _ _). Qed.

(** After a word character, word characters followed by a boundary can
    always be found: the repetition runs to the end of the word. *)
Lemma iterate_to_word_end (fuel : nat) (prev : option ascii) (s : string) :
  wordBefore prev = true -> (String.length s <= fuel)%nat ->
  iterate (run WordChar) atBoundary fuel prev s = true.
Proof.
  revert prev s; induction fuel as [|fuel IH]; intros prev s Hp Hlen.
  - destruct s; [|cbn in Hlen; lia]. cbn [iterate].
    rewrite atBoundary_xorb, Hp. reflexivity.
  - cbn [iterate]. destruct s as [|a rest].
    + cbn [run orb]. rewrite atBoundary_xorb, Hp. reflexivity.
    + cbn [run]. destruct (isWordChar a) eqn:Ha.
      * assert (Hlt : (String.length rest <? String.length (String a rest))%nat = true)
          by (apply Nat.ltb_lt; cbn; lia).
        rewrite Hlt, IH; [reflexivity | exact Ha | cbn in Hlen; lia].
      * cbn [orb]. rewrite atBoundary_xorb, Hp. cbn. now rewrite Ha.
Qed.

Lemma search_iff (r : Regex) (prev : option ascii) (s : string) :
  search r prev s = true
  <-> exists before rest,
        s = before ++ rest
        /\ run r (charBefore prev before) rest (fun _ _ => true) = true.
Proof.
  revert prev; induction s as [|a s IH]; intros prev; cbn [search].
  - rewrite orb_false_r. split.
    + intros H. now exists EmptyString, EmptyString.
    + intros [[|b before] [rest [H Hr]]]; [|discriminate].
      destruct rest; [exact Hr | discriminate].
  - rewrite orb_true_iff, IH. split.
    + intros [H | [before [rest [-> Hr]]]].
      * now exists EmptyString, (String a s).
      * now exists (String a before), rest.
    + intros [[|b before] [rest [H Hr]]].
      * left. cbn in H. now subst rest.
      * right. cbn in H. inversion H; subst. now exists before, rest.
Qed.

Lemma run_languagePattern_unfold (w1 w2 stem : string)
    (prev : option ascii) (s : string) :
  run (languagePattern w1 w2 stem) prev s (fun _ _ => true)
  = if xorb (wordBefore prev) (wordAhead s)
    then run (lit w1) prev s atBoundary
         || (run (lit w2) prev s atBoundary
             || run (lit stem) prev s
                  (fun p rest =>
                     iterate (run WordChar) atBoundary (String.length rest) p rest))
    else false.
Proof. reflexivity. Qed.

Lemma run_lit_boundary (w : string) (prev : option ascii) (s : string) :
  properWord w ->
  run (lit w) prev s atBoundary = true <-> wordAt w s.
Proof.
  intros [Hw Hne]. rewrite run_lit. unfold wordAt.
  split; intros [found [after [-> [Hf Hk]]]]; exists found, after.
  - apply (sameLetters_iff _ _ Hw) in Hf. repeat split; try assumption.
    rewrite atBoundary_xorb, (letters_wordBefore found w prev Hw Hne Hf) in Hk.
    now destruct (wordAhead after).
  - repeat split.
    + now apply sameLetters_iff.
    + rewrite atBoundary_xorb, (letters_wordBefore found w prev Hw Hne Hf), Hk.
      reflexivity.
Qed.

Lemma run_lit_stem (w : string) (prev : option ascii) (s : string) :
  properWord w ->
  run (lit w) prev s
    (fun p rest => iterate (run WordChar) atBoundary (String.length rest) p rest)
  = true
  <-> stemAt w s.
Proof.
  intros [Hw Hne]. rewrite run_lit. unfold stemAt.
  split; [intros [found [after [-> [Hf Hk]]]] | intros [found [after [-> Hf]]]];
    exists found, after.
  - apply (sameLetters_iff _ _ Hw) in Hf. now split.
  - repeat split.
    + now apply sameLetters_iff.
    + apply iterate_to_word_end; [|lia].
      now apply (letters_wordBefore found w prev Hw Hne).
Qed.

Lemma run_languagePattern (w1 w2 stem : string) (prev : option ascii) (s : string) :
  properWord w1 -> properWord w2 -> properWord stem ->
  run (languagePattern w1 w2 stem) prev s (fun _ _ => true) = true
  <-> wordBefore prev = false /\ (wordAt w1 s \/ wordAt w2 s \/ stemAt stem s).
Proof.
  intros H1 H2 H3. rewrite run_languagePattern_unfold.
  assert (Hahead : wordAt w1 s \/ wordAt w2 s \/ stemAt stem s ->
                   wordAhead s = true).
  { intros [[f [a [-> [Hf _]]]] | [[f [a [-> [Hf _]]]] | [f [a [-> Hf]]]]].
    - destruct H1. now apply (letters_wordAhead f w1).
    - destruct H2. now apply (letters_wordAhead f w2).
    - destruct H3. now apply (letters_wordAhead f stem). }
  rewrite <- (run_lit_boundary w1 prev s H1), <- (run_lit_boundary w2 prev s H2),
    <- (run_lit_stem stem prev s H3) in *.
  rewrite <- !orb_true_iff in *.
  destruct (run (lit w1) prev s atBoundary
            || (run (lit w2) prev s atBoundary
                || run (lit stem) prev s _)).
  - rewrite (Hahead eq_refl). destruct (wordBefore prev); cbn; intuition congruence.
  - destruct (xorb _ _); intuition congruence.
Qed.

Lemma test_languagePattern (w1 w2 stem s : string) :
  properWord w1 -> properWord w2 -> properWord stem ->
  test (languagePattern w1 w2 stem) s = true
  <-> wholeWord w1 s \/ wholeWord w2 s \/ wordBeginning stem s.
Proof.
  intros H1 H2 H3. unfold test. rewrite search_iff. split.
  - intros [before [rest [-> Hrun]]].
    apply (run_languagePattern w1 w2 stem _ _ H1 H2 H3) in Hrun
      as [Hb [[f [a [-> [Hf Ha]]]] | [[f [a [-> [Hf Ha]]]] | [f [a [-> Hf]]]]]].
    + left. now exists before, f, a.
    + right; left. now exists before, f, a.
    + right; right. now exists before, f, a.
  - intros [[b [f [a [-> [Hf [Hb Ha]]]]]]
           | [[b [f [a [-> [Hf [Hb Ha]]]]]] | [b [f [a [-> [Hf Hb]]]]]]];
      exists b, (f ++ a); (split; [reflexivity|]);
      apply (run_languagePattern w1 w2 stem _ _ H1 H2 H3); (split; [exact Hb|]).
    + left. now exists f, a.
    + right; left. now exists f, a.
    + right; right. now exists f, a.
Qed.

(** Lower-casing the text changes neither predicate. *)
Lemma wholeWord_toLowerCase (w s : string) :
  wholeWord w (toLowerCase s) <-> wholeWord w s.
Proof.
  unfold wholeWord. split.
  - intros [b [f [a [H [Hf [Hb Ha]]]]]].
    apply toLowerCase_app_inv in H as [b' [r' [-> [Hb' Hr]]]].
    apply toLowerCase_app_inv in Hr as [f' [a' [-> [Hf' Ha']]]].
    exists b', f', a'. subst b f a. repeat split.
    + now rewrite toLowerCase_idempotent in Hf.
    + now rewrite <- wordBefore_toLowerCase.
    + now rewrite wordAhead_toLowerCase in Ha.
  - intros [b [f [a [-> [Hf [Hb Ha]]]]]].
    exists (toLowerCase b), (toLowerCase f), (toLowerCase a). repeat split.
    + now rewrite !toLowerCase_app.
    + now rewrite toLowerCase_idempotent.
    + now rewrite wordBefore_toLowerCase.
    + now rewrite wordAhead_toLowerCase.
Qed.

Lemma wordBeginning_toLowerCase (p s : string) :
  wordBeginning p (toLowerCase s) <-> wordBeginning p s.
Proof.
  unfold wordBeginning. split.
  - intros [b [f [a [H [Hf Hb]]]]].
    apply toLowerCase_app_inv in H as [b' [r' [-> [Hb' Hr]]]].
    apply toLowerCase_app_inv in Hr as [f' [a' [-> [Hf' Ha']]]].
    exists b', f', a'. subst b f a. repeat split.
    + now rewrite toLowerCase_idempotent in Hf.
    + now rewrite <- wordBefore_toLowerCase.
  - intros [b [f [a [-> [Hf Hb]]]]].
    exists (toLowerCase b), (toLowerCase f), (toLowerCase a). repeat split.
    + now rewrite !toLowerCase_app.
    + now rewrite toLowerCase_idempotent.
    + now rewrite wordBefore_toLowerCase.
Qed.

(** A whole word begins with each of its prefixes. *)
Lemma wholeWord_wordBeginning (stem ending s : string) :
  wholeWord (stem ++ ending) s -> wordBeginning stem s.
Proof.
  intros [b [f [a [-> [Hf [Hb _]]]]]].
  apply toLowerCase_app_inv in Hf as [f1 [f2 [-> [H1 H2]]]].
  exists b, f1, (f2 ++ a). repeat split; try assumption.
  clear. induction b as [|c b IH]; cbn; [|now rewrite IH].
  induction f1 as [|c f1 IH]; cbn; [reflexivity | now rewrite IH].
Qed.

Lemma test_englishPattern (text : string) :
  test englishPattern (toLowerCase text) = true
  <-> wordBeginning "engl" text \/ wholeWord "inglese" text.
Proof.
  change englishPattern with (languagePattern "english" "inglese" "engl").
  rewrite test_languagePattern by (split; [reflexivity | discriminate]).
  rewrite !wholeWord_toLowerCase, wordBeginning_toLowerCase.
  pose proof (wholeWord_wordBeginning "engl" "ish" text). cbn in H. tauto.
Qed.

Lemma test_italianPattern (text : string) :
  test italianPattern (toLowerCase text) = true <-> wordBeginning "ital" text.
Proof.
  change italianPattern with (languagePattern "italian" "italiano" "ital").
  rewrite test_languagePattern by (split; [reflexivity | discriminate]).
  rewrite !wholeWord_toLowerCase, wordBeginning_toLowerCase.
  pose proof (wholeWord_wordBeginning "ital" "ian" text).
  pose proof (wholeWord_wordBeginning "ital" "iano" text). cbn in *. tauto.
Qed.

Lemma languageEffect_withUserMessage (engine : Engine.t) (locale : Locale)
    (earlier : list Message.t) (text : string) (timestamp : option float) :
  languageEffect engine locale (withUserMessage earlier text timestamp)
  = if test englishPattern (Engine.toLowerCase engine text) then en
    else if test italianPattern (Engine.toLowerCase engine text) then it
    else locale.
Proof.
  unfold languageEffect, withUserMessage.
  rewrite map_app. cbn [map]. now rewrite last_last.
Qed.

(** C8, as stated, fails: "english italiano" holds the standalone word
    "italiano" and switches to English, and "I love Italy" holds neither
    keyword, not even inside a word, and switches to Italian.  Both
    messages are ASCII text. *)
Lemma languageEffect_not_as_stated :
  languageEffect asciiEngine it (withUserMessage [] "english italiano" None) = en
  /\ wholeWord "italiano" "english italiano"
  /\ languageEffect asciiEngine en (withUserMessage [] "I love Italy" None) = it
  /\ includes (toLowerCase "I love Italy") "english" = false
  /\ includes (toLowerCase "I love Italy") "italiano" = false
  /\ isAscii "english italiano" = true
  /\ isAscii "I love Italy" = true.
Proof.
  repeat split.
  exists "english ", "italiano", "". repeat split.
Qed.

Lemma englishPattern_words (s : string) :
  test englishPattern s = true
  <-> wordBeginning "engl" s \/ wholeWord "inglese" s.
Proof.
  change englishPattern with (languagePattern "english" "inglese" "engl").
  rewrite test_languagePattern by (split; [reflexivity | discriminate]).
  pose proof (wholeWord_wordBeginning "engl" "ish" s). cbn in H. tauto.
Qed.

Lemma italianPattern_words (s : string) :
  test italianPattern s = true <-> wordBeginning "ital" s.
Proof.
  change italianPattern with (languagePattern "italian" "italiano" "ital").
  rewrite test_languagePattern by (split; [reflexivity | discriminate]).
  pose proof (wholeWord_wordBeginning "ital" "ian" s).
  pose proof (wholeWord_wordBeginning "ital" "iano" s). cbn in *. tauto.
Qed.

(** C8, amended. When a user message has just been appended, the
    effect lower-cases it and sets the locale to [en] if the result
    holds a word beginning with "engl" (the standalone word "english" is
    one) or the standalone word "inglese"; if it holds none of these,
    the effect sets the locale to [it] if the result holds a word
    beginning with "ital" (the standalone word "italiano" is one); and
    it leaves the locale as it is if the result holds no such word at
    all.  A word is delimited by anything but letters, digits and the
    underscore.  For a message of ASCII text, lower-casing changes no
    word, and all of this holds of the words of the message itself, in
    any case.  Beyond ASCII it need not: the engine lowers U+212A to the
    letter k, and a word with that sign before or after it is no longer
    one. *)
Theorem languageEffect_switch (engine : Engine.t) (locale : Locale)
    (earlier : list Message.t) (text : string) (timestamp : option float) :
  (let lowered := Engine.toLowerCase engine text in
     (wordBeginning "engl" lowered \/ wholeWord "inglese" lowered ->
      languageEffect engine locale (withUserMessage earlier text timestamp) = en)
     /\ (~ (wordBeginning "engl" lowered \/ wholeWord "inglese" lowered) ->
         wordBeginning "ital" lowered ->
         languageEffect engine locale (withUserMessage earlier text timestamp)
         = it)
     /\ (~ (wordBeginning "engl" lowered \/ wholeWord "inglese" lowered) ->
         ~ wordBeginning "ital" lowered ->
         languageEffect engine locale (withUserMessage earlier text timestamp)
         = locale))
  /\ (agreesOnAscii engine -> isAscii text = true ->
      (wholeWord "english" text ->
       languageEffect engine locale (withUserMessage earlier text timestamp) = en)
      /\ (wordBeginning "engl" text \/ wholeWord "inglese" text ->
          languageEffect engine locale (withUserMessage earlier text timestamp)
          = en)
      /\ (wholeWord "italiano" text ->
          ~ (wordBeginning "engl" text \/ wholeWord "inglese" text) ->
          languageEffect engine locale (withUserMessage earlier text timestamp)
          = it)
      /\ (wordBeginning "ital" text ->
          ~ (wordBeginning "engl" text \/ wholeWord "inglese" text) ->
          languageEffect engine locale (withUserMessage earlier text timestamp)
          = it)
      /\ (~ (wordBeginning "engl" text \/ wholeWord "inglese" text) ->
          ~ wordBeginning "ital" text ->
          languageEffect engine locale (withUserMessage earlier text timestamp)
          = locale)).
Proof.
  rewrite languageEffect_withUserMessage. split.
  - cbv zeta.
    pose proof (englishPattern_words (Engine.toLowerCase engine text)) as He.
    pose proof (italianPattern_words (Engine.toLowerCase engine text)) as Hi.
    destruct (test englishPattern (Engine.toLowerCase engine text));
      destruct (test italianPattern (Engine.toLowerCase engine text));
      repeat split; intros; try reflexivity; exfalso;
      intuition congruence.
  - intros Hengine Hascii. rewrite (proj2 (Hengine text Hascii)).
    pose proof (test_englishPattern text) as He.
    pose proof (test_italianPattern text) as Hi.
    pose proof (wholeWord_wordBeginning "engl" "ish" text) as Hen.
    pose proof (wholeWord_wordBeginning "ital" "iano" text) as Hit.
    cbn [append] in Hen, Hit.
    destruct (test englishPattern (toLowerCase text));
      destruct (test italianPattern (toLowerCase text));
      repeat split; intros; try reflexivity; exfalso;
      intuition congruence.
Qed.

Lemma asciiEngine_agrees : agreesOnAscii asciiEngine.
Proof. intros s _. split; reflexivity. Qed.

Lemma languageEffect_switch_witness :
  languageEffect asciiEngine it (withUserMessage [] "Do you speak English?" None)
  = en
  /\ languageEffect asciiEngine en (withUserMessage [] "Parla in ITALIANO" None)
     = it
  /\ languageEffect asciiEngine it (withUserMessage [] "Grazie mille" None) = it.
Proof.
  split; [|split].
  - apply (proj1 (proj2 (languageEffect_switch asciiEngine it []
                           "Do you speak English?" None)
                    asciiEngine_agrees eq_refl)).
    exists "Do you speak ", "English", "?". repeat split.
  - apply (proj1 (proj2 (proj2
             (proj2 (languageEffect_switch asciiEngine en [] "Parla in ITALIANO"
                       None)
                asciiEngine_agrees eq_refl)))).
    + exists "Parla in ", "ITALIANO", "". repeat split.
    + apply (proj1 (not_iff_compat (test_englishPattern "Parla in ITALIANO"))).
      discriminate.
  - apply (proj2 (proj2 (proj2 (proj2
             (proj2 (languageEffect_switch asciiEngine it [] "Grazie mille" None)
                asciiEngine_agrees eq_refl))))).
    + apply (proj1 (not_iff_compat (test_englishPattern "Grazie mille"))).
      discriminate.
    + apply (proj1 (not_iff_compat (test_italianPattern "Grazie mille"))).
      discriminate.
Defined.

(* ================================================================== *)
(** * Properties of the translation lookup *)
(* ================================================================== *)

(** For the keys that hold text the lookup returns that text. *)
Lemma t_textKeys (builtin : JsVal -> string -> JsVal) (locale : Locale)
    (key : string) :
  In key textKeys ->
  isText (t builtin locale key) = true
  /\ lookup key (bodyFields (translations locale)) = Some (t builtin locale key).
Proof.
  intros H. cbn in H.
  repeat (destruct H as [<- | H]; [destruct locale; split; reflexivity|]).
  contradiction.
Qed.

(** Once the walk has lost its way it stays at [undefined], and the
    lookup hands the key back. *)
Lemma walk_undefined (builtin : JsVal -> string -> JsVal) (keys : list string) :
  fold_left (member builtin) keys JUndefined = JUndefined.
Proof. induction keys as [|k keys IH]; [reflexivity | exact IH]. Qed.

Lemma t_unresolved (builtin : JsVal -> string -> JsVal) (locale : Locale)
    (key : string) :
  truthy (fold_left (member builtin) (split "." key) (translations locale)) = false ->
  t builtin locale key = JStr key.
Proof. unfold t. now intros ->. Qed.

(** C10. The lookup is a total function, but not into text: for the
    key "quickReplies" it returns the list of quick replies of the
    locale, whatever the engine's built-in members are. *)
Theorem t_quickReplies_is_a_list (builtin : JsVal -> string -> JsVal) :
  t builtin en "quickReplies"
  = JArr [JStr "Start a new business"; JStr "Check obligations";
          JStr "Parla in Italiano"]
  /\ isText (t builtin en "quickReplies") = false
  /\ isText (t builtin it "quickReplies") = false.
Proof. repeat split. Qed.

(* ================================================================== *)
(** * Properties of the session handling *)
(* ================================================================== *)

Lemma getItem_setItem (store : Storage) (key value : string) :
  getItem (setItem store key value) key = Some value.
Proof.
  induction store as [|[k v] store IH]; cbn.
  - now rewrite String.eqb_refl.
  - destruct (k =? key) eqn:Hk; cbn; rewrite Hk; [reflexivity | exact IH].
Qed.

Lemma nonEmpty_Some (s : string) : s <> "" -> nonEmpty (Some s) = true.
Proof. intros H. cbn. apply String.eqb_neq in H. now rewrite H. Qed.

Section Sessions.

Variable mint : list string -> string.
Variable greeting : string.
Variable toText : JsVal -> string.
Variable jsonText : JsVal -> string.
Variable engine : Engine.t.

(** What makes an identifier fresh, and an identifier. *)
Hypothesis mint_fresh : forall known, ~ In (mint known) known.
Hypothesis mint_nonEmpty : forall known, mint known <> "".

Local Abbreviation newSession := (start mint greeting).
Local Abbreviation mount := (ensureSidAndGreeting mint greeting).
Local Abbreviation runSend := (sendMessage mint greeting toText jsonText engine).
Local Abbreviation runSends := (sendAll mint greeting toText jsonText engine).
Local Abbreviation trimmed := (Engine.trim engine).

Lemma showResponse_sessionId (clock : Clock.t) (v : View.t)
    (response : Completion ChatResponse.t) :
  View.sessionId (showResponse toText jsonText clock v response) = View.sessionId v.
Proof.
  unfold showResponse. destruct response as [r|e]; [|reflexivity].
  destruct (truthy (ChatResponse.error r)); [reflexivity|].
  now destruct (hasLength (ChatResponse.suggestions r)).
Qed.

Lemma orStored_kept (sid : string) (w : World.t) :
  sid <> "" -> sessionKept sid w ->
  orStored (View.sessionId (World.view w)) (getItem (World.storage w) SID_KEY)
  = Some sid.
Proof.
  intros Hne [Hstore [Hstate | Hstate]]; unfold orStored; rewrite Hstate, Hstore.
  - reflexivity.
  - now rewrite (nonEmpty_Some sid Hne).
Qed.

(** A send in a session that is kept keeps the session; it calls
    nothing for a message that trims to nothing and else [askBackend],
    once, with the kept identifier. *)
Lemma sendMessage_kept (sid : string) (w : World.t) (fetch : Transport)
    (clock : Clock.t) (content : string) :
  sid <> "" -> sessionKept sid w ->
  sessionKept sid (fst (runSend fetch clock w content))
  /\ snd (runSend fetch clock w content)
     = if trimmed content =? "" then []
       else [AskCall (ChatRequest.make (Some (trimmed content)) None (Some sid)
                        (Some (View.locale (World.view w))))].
Proof.
  intros Hne Hkept. unfold sendMessage.
  rewrite (orStored_kept sid w Hne Hkept), (nonEmpty_Some sid Hne).
  cbn [negb truthy].
  destruct (trimmed content =? "") eqn:Hblank; cbn [negb fst snd].
  - split; [exact Hkept | reflexivity].
  - split; [|reflexivity]. split; [apply Hkept|].
    cbn [World.view World.storage View.sessionId rendered].
    rewrite showResponse_sessionId. cbn. apply Hkept.
Qed.

Lemma sendAll_kept (sid : string) (sends : list (Transport * Clock.t * string)) :
  sid <> "" ->
  forall w, sessionKept sid w ->
  sessionKept sid (fst (runSends w sends))
  /\ map asked (snd (runSends w sends))
     = map (fun text => Some (Some text, Some sid)) (sentTexts engine sends).
Proof.
  intros Hne. induction sends as [|[[fetch clock] content] sends IH]; intros w Hkept.
  - split; [exact Hkept | reflexivity].
  - cbn [sendAll].
    destruct (sendMessage_kept sid w fetch clock content Hne Hkept)
      as [Hkept' Hcalls].
    destruct (runSend fetch clock w content) as [w' calls]. cbn [fst snd] in *.
    destruct (IH w' Hkept') as [Hkept'' Hrest].
    destruct (runSends w' sends) as [w'' calls']. cbn [fst snd] in *.
    split; [exact Hkept''|]. rewrite map_app, Hrest, Hcalls.
    unfold sentTexts. cbn [map snd filter].
    destruct (trimmed content =? ""); reflexivity.
Qed.

(** Calls that all ask under [sid]: none of them is a [start] call. *)
Lemma asked_under (sid : string) (calls : list Call) (texts : list string) :
  map asked calls = map (fun text => Some (Some text, Some sid)) texts ->
  (forall request, ~ In (StartCall request) calls)
  /\ (forall request, In (AskCall request) calls ->
                      ChatRequest.sessionId request = Some sid).
Proof.
  revert texts. induction calls as [|call calls IH]; intros texts H.
  - split; intros request [].
  - destruct texts as [|text texts]; [discriminate|].
    cbn [map] in H. inversion H as [[Hcall Hcalls]].
    destruct (IH texts Hcalls) as [Hstart Hask]. split.
    + intros request [-> | Hin]; [discriminate | now apply (Hstart request)].
    + intros request [-> | Hin]; [|now apply Hask].
      cbn in Hcall. now inversion Hcall.
Qed.

(** C9. [start] is called without a session identifier and returns an
    identifier the backend has not issued before, with the greeting.
    From a state with nothing stored and nothing held, the mount effect
    and, for a message that does not trim to nothing, [sendMessage] call
    [start] once and store its identifier under [SID_KEY].  Once an
    identifier is stored there, the sends that follow make exactly one
    call of [askBackend] for every message that does not trim to
    nothing, in the order of the messages, each with the trimmed message
    and the stored identifier as [sessionId], and they make no other
    call: none of them calls [start]. *)
Theorem session_reused :
  (forall b,
     HttpRequest.body (startRequest) = None
     /\ fst (newSession b)
        = StartResult.make (mint (issued b)) greeting
     /\ ~ In (StartResult.session_id (fst (newSession b))) (issued b)
     /\ issued (snd (newSession b))
        = StartResult.session_id (fst (newSession b)) :: issued b)
  /\ (forall now w,
        getItem (World.storage w) SID_KEY = None ->
        View.sessionId (World.view w) = None ->
        snd (mount now w) = [StartCall startRequest]
        /\ sessionKept (mint (issued (World.backend w)))
             (fst (mount now w)))
  /\ (forall fetch clock w content,
        getItem (World.storage w) SID_KEY = None ->
        View.sessionId (World.view w) = None ->
        trimmed content <> "" ->
        snd (runSend fetch clock w content)
        = [StartCall startRequest;
           AskCall (ChatRequest.make (Some (trimmed content)) None
                      (Some (mint (issued (World.backend w))))
                      (Some (View.locale (World.view w))))]
        /\ sessionKept (mint (issued (World.backend w)))
             (fst (runSend fetch clock w content)))
  /\ (forall sid w sends,
        sid <> "" -> sessionKept sid w ->
        sessionKept sid (fst (runSends w sends))
        /\ map asked (snd (runSends w sends))
           = map (fun text => Some (Some text, Some sid)) (sentTexts engine sends)
        /\ (forall request, ~ In (StartCall request) (snd (runSends w sends)))
        /\ (forall request,
              In (AskCall request) (snd (runSends w sends)) ->
              ChatRequest.sessionId request = Some sid))
  /\ (forall now w sends,
        getItem (World.storage w) SID_KEY = None ->
        View.sessionId (World.view w) = None ->
        let mounted := fst (mount now w) in
        sessionKept (mint (issued (World.backend w)))
          (fst (runSends mounted sends))
        /\ map asked (snd (runSends mounted sends))
           = map (fun text =>
                    Some (Some text, Some (mint (issued (World.backend w)))))
               (sentTexts engine sends)
        /\ (forall request, ~ In (StartCall request) (snd (runSends mounted sends)))
        /\ (forall request,
              In (AskCall request) (snd (runSends mounted sends)) ->
              ChatRequest.sessionId request
              = Some (mint (issued (World.backend w))))).
Proof.
  assert (Hmount : forall now w,
             getItem (World.storage w) SID_KEY = None ->
             View.sessionId (World.view w) = None ->
             snd (mount now w) = [StartCall startRequest]
             /\ sessionKept (mint (issued (World.backend w)))
                  (fst (mount now w))).
  { intros now w Hstore Hstate. unfold ensureSidAndGreeting.
    rewrite Hstate, Hstore. cbn [nonEmpty negb openSession start].
    cbn [StartResult.session_id StartResult.reply].
    destruct (truthy (JStr greeting)); cbn [fst snd]; split; try reflexivity;
      (split; [apply getItem_setItem | now right]). }
  assert (Hkeep : forall sid w sends,
             sid <> "" -> sessionKept sid w ->
             sessionKept sid (fst (runSends w sends))
             /\ map asked (snd (runSends w sends))
                = map (fun text => Some (Some text, Some sid))
                    (sentTexts engine sends)
             /\ (forall request, ~ In (StartCall request) (snd (runSends w sends)))
             /\ (forall request,
                   In (AskCall request) (snd (runSends w sends)) ->
                   ChatRequest.sessionId request = Some sid)).
  { intros sid w sends Hne Hkept.
    destruct (sendAll_kept sid sends Hne w Hkept) as [Hk Hcalls].
    split; [exact Hk|]. split; [exact Hcalls|].
    exact (asked_under sid _ _ Hcalls). }
  split; [|split; [exact Hmount|split; [|split; [exact Hkeep|]]]].
  - intros b. repeat split. apply mint_fresh.
  - intros fetch clock w content Hstore Hstate Hblank. unfold sendMessage.
    apply String.eqb_neq in Hblank. cbn [truthy]. rewrite Hblank.
    rewrite Hstate, Hstore. cbn [negb orStored nonEmpty openSession start].
    cbn [StartResult.session_id StartResult.reply].
    destruct (truthy (JStr greeting)); cbn [fst snd app]; split; try reflexivity;
      (split; [apply getItem_setItem|]);
      cbn [World.view View.sessionId rendered];
      rewrite showResponse_sessionId; now right.
  - intros now w sends Hstore Hstate mounted.
    apply Hkeep; [apply mint_nonEmpty|]. now apply Hmount.
Qed.

End Sessions.

Lemma length_append (a b : string) :
  String.length (a ++ b) = (String.length a + String.length b)%nat.
Proof. induction a as [|c a IH]; cbn; [reflexivity | now rewrite IH]. Qed.

Lemma longerId_fresh (known : list string) : ~ In (longerId known) known.
Proof.
  assert (H : forall s, In s known ->
                        (String.length s <= String.length (joined known))%nat).
  { induction known as [|k known IH]; intros s []; cbn; rewrite length_append.
    - subst; lia.
    - specialize (IH s H); lia. }
  intros Hin. apply H in Hin. cbn in Hin. lia.
Qed.

Lemma longerId_nonEmpty (known : list string) : longerId known <> "".
Proof. discriminate. Qed.

Lemma session_reused_witness :
  sessionKept "s"
    (fst (sendAll longerId "Ciao!" (fun _ => "") (fun _ => "") asciiEngine
            (fst (ensureSidAndGreeting longerId "Ciao!" 0%float blankWorld))
            [(alwaysFine, clockAt 1, "hello"); (alwaysFine, clockAt 2000, "  ");
             (alwaysFine, clockAt 3000, "italiano")]))
  /\ map asked
       (snd (sendAll longerId "Ciao!" (fun _ => "") (fun _ => "") asciiEngine
               (fst (ensureSidAndGreeting longerId "Ciao!" 0%float blankWorld))
               [(alwaysFine, clockAt 1, "hello"); (alwaysFine, clockAt 2000, "  ");
                (alwaysFine, clockAt 3000, "italiano")]))
     = [Some (Some "hello", Some "s"); Some (Some "italiano", Some "s")].
Proof.
  pose proof (proj2 (proj2 (proj2 (proj2
                (session_reused longerId "Ciao!" (fun _ => "") (fun _ => "")
                   asciiEngine longerId_fresh longerId_nonEmpty))))
                0%float blankWorld
                [(alwaysFine, clockAt 1, "hello"); (alwaysFine, clockAt 2000, "  ");
                 (alwaysFine, clockAt 3000, "italiano")]
                eq_refl eq_refl) as [Hkept [Hasked _]].
  split; [exact Hkept | exact Hasked].
Defined.

(* ================================================================== *)
(** * Further properties of the chat client *)
(* ================================================================== *)

Lemma handleErrorResponse_readable (response : Response.t) :
  nullish (errorBody response) = false ->
  handleErrorResponse response
  = Normal (ChatResponse.make (JStr "") JUndefined JUndefined
              (category (extractedCode response) (Response.status response)
                 (extractedMessage response))
              (extractedCode response)).
Proof.
  intros Hbody. unfold handleErrorResponse. fold (errorBody response).
  rewrite !chain2 by exact Hbody. cbn [bind].
  fold (extractedCode response) (extractedMessage response).
  now rewrite switch_category.
Qed.

Lemma handleErrorResponse_throws_iff (response : Response.t) (failure : Thrown) :
  handleErrorResponse response = Throw failure
  <-> exists base, nullBodyOf response base /\ failure = nullishRead base "code".
Proof.
  destruct (nullish (errorBody response)) eqn:Hbody.
  - unfold handleErrorResponse, nullBodyOf, errorBody in *.
    destruct (Response.json response) as [[| | | | | |]|e]; try discriminate; cbn.
    + split.
      * intros H. inversion H. exists "undefined". split; [right; now split | reflexivity].
      * intros [base [[[-> H] | [-> H]] ->]]; [discriminate H | reflexivity].
    + split.
      * intros H. inversion H. exists "null". split; [left; now split | reflexivity].
      * intros [base [[[-> H] | [-> H]] ->]]; [reflexivity | discriminate H].
  - rewrite (handleErrorResponse_readable response Hbody). split; [discriminate|].
    intros [base [[[_ H] | [_ H]] _]]; unfold errorBody in Hbody;
      rewrite H in Hbody; discriminate.
Qed.

(** X1. [askBackend] rejects in one situation only: the response is
    not 2xx and its body parses to [null] (or is [undefined]); the
    rejection is the [TypeError] of reading [code] off that body.  Every
    other outcome of the transport is turned into a response. *)
Theorem askBackend_rejects_iff (fetch : Transport) (request : ChatRequest.t)
    (failure : Thrown) :
  askBackend fetch request = Throw failure
  <-> exists response base,
        fetch (chatRequest request) = Normal response
        /\ Response.ok response = false
        /\ nullBodyOf response base
        /\ failure = nullishRead base "code".
Proof.
  unfold askBackend.
  destruct (fetch (chatRequest request)) as [response|e].
  - destruct (Response.ok response) eqn:Hok; cbn [negb].
    + split; [discriminate|].
      intros [r [base [H [Hr _]]]]. inversion H; subst. congruence.
    + rewrite handleErrorResponse_throws_iff. split.
      * intros [base [Hb Hf]]. now exists response, base.
      * intros [r [base [H [_ [Hb Hf]]]]]. inversion H; subst. now exists base.
  - split; [discriminate|]. intros [r [base [H _]]]. discriminate.
Qed.

Lemma http_code_unknown (suffix : string) :
  categoryOfCode ("http_" ++ suffix) codeCategories = None.
Proof. reflexivity. Qed.

(** X2. When the body of a failed response is not [null] and has none
    of the fields [code], [error_code], [error] and [message] with a
    truthy value, which includes every body that is not JSON, the code
    is "http_"
    followed by the status and the category is read off the status
    alone: [server_error] from 500 on, [invalid_api_key] for 401 and
    403, [quota_exceeded] for 429, and "HTTP " followed by the status
    for the rest. *)
Theorem handleErrorResponse_by_status (response : Response.t) :
  nullish (errorBody response) = false ->
  (forall k, In k ["code"; "error_code"; "error"; "message"] ->
             truthy (fieldOf (errorBody response) k) = false) ->
  handleErrorResponse response
  = Normal (ChatResponse.make (JStr "") JUndefined JUndefined
              (statusCategory (Response.status response))
              (JStr ("http_" ++ showN (Response.status response)))).
Proof.
  intros Hbody Hnone. rewrite (handleErrorResponse_readable response Hbody).
  unfold extractedCode, extractedMessage. cbn [firstTruthy].
  rewrite !Hnone by (cbn; tauto).
  unfold category. rewrite http_code_unknown. reflexivity.
Qed.

Lemma handleErrorResponse_by_status_witness :
  handleErrorResponse (Response.make 404 (Throw (ErrorObject "Unexpected token <")))
  = Normal (ChatResponse.make (JStr "") JUndefined JUndefined
              (JStr "HTTP 404") (JStr "http_404"))
  /\ handleErrorResponse (Response.make 502 (Normal (JArr [])))
     = Normal (ChatResponse.make (JStr "") JUndefined JUndefined
                 (JStr "server_error") (JStr "http_502")).
Proof.
  split.
  - apply (handleErrorResponse_by_status
             (Response.make 404 (Throw (ErrorObject "Unexpected token <"))));
      [reflexivity | intros k _; reflexivity].
  - apply (handleErrorResponse_by_status (Response.make 502 (Normal (JArr []))));
      [reflexivity | intros k _; reflexivity].
Defined.

(** X3. A code with a category of its own decides the category
    whatever the status and the message are: when the first truthy one
    of the body's [code] and [error_code] is one of the seven known
    codes, the response carries that code and its category. *)
Theorem handleErrorResponse_known_code (response : Response.t)
    (code known : string) :
  nullish (errorBody response) = false ->
  extractedCode response = JStr code ->
  categoryOfCode code codeCategories = Some known ->
  handleErrorResponse response
  = Normal (ChatResponse.make (JStr "") JUndefined JUndefined
              (JStr known) (JStr code)).
Proof.
  intros Hbody Hcode Hknown. rewrite (handleErrorResponse_readable response Hbody).
  rewrite Hcode. unfold category. now rewrite Hknown.
Qed.

Lemma handleErrorResponse_known_code_witness :
  handleErrorResponse
    (Response.make 500 (Normal (JObj [("error", JStr "upstream timed out");
                                      ("error_code", JStr "timeout")])))
  = Normal (ChatResponse.make (JStr "") JUndefined JUndefined
              (JStr "timeout") (JStr "timeout")).
Proof.
  apply (handleErrorResponse_known_code
           (Response.make 500 (Normal (JObj [("error", JStr "upstream timed out");
                                             ("error_code", JStr "timeout")])))
           "timeout" "timeout"); reflexivity.
Defined.

Lemma firstTruthy_truthy (candidates : list JsVal) (default : JsVal) :
  truthy default = true -> truthy (firstTruthy candidates default) = true.
Proof.
  intros Hd. induction candidates as [|v rest IH]; cbn; [exact Hd|].
  destruct (truthy v) eqn:Hv; [exact Hv | exact IH].
Qed.

(** X4. A response of the error classifier is never half empty: its
    [error] and its [code] are both truthy, its [reply] is the empty
    text, and it has neither [suggestions] nor [sessionId]. *)
Theorem handleErrorResponse_populated (response : Response.t)
    (r : ChatResponse.t) :
  handleErrorResponse response = Normal r ->
  truthy (ChatResponse.error r) = true
  /\ truthy (ChatResponse.code r) = true
  /\ ChatResponse.reply r = JStr ""
  /\ ChatResponse.suggestions r = JUndefined
  /\ ChatResponse.sessionId r = JUndefined.
Proof.
  intros H. destruct (handleErrorResponse_shape response r H) as [Hreply Herror].
  destruct (nullish (errorBody response)) eqn:Hbody.
  - assert (Hthrow : exists f, handleErrorResponse response = Throw f).
    { unfold handleErrorResponse, errorBody in *.
      destruct (Response.json response) as [[| | | | | |]|e]; try discriminate;
        cbn; eexists; reflexivity. }
    destruct Hthrow as [f Hf]. congruence.
  - rewrite (handleErrorResponse_readable response Hbody) in H.
    inversion H; subst; clear H.
    cbn [ChatResponse.error ChatResponse.code ChatResponse.reply
         ChatResponse.suggestions ChatResponse.sessionId] in *.
    repeat split; try assumption.
    unfold extractedCode. apply firstTruthy_truthy. reflexivity.
Qed.

Lemma handleErrorResponse_populated_witness :
  handleErrorResponse rateLimited
  = Normal (ChatResponse.make (JStr "") JUndefined JUndefined
              (JStr "quota_exceeded") (JStr "rate_limit"))
  /\ truthy (JStr "quota_exceeded") = true
  /\ truthy (JStr "rate_limit") = true.
Proof.
  split; [reflexivity|].
  destruct (handleErrorResponse_populated rateLimited
              (ChatResponse.make (JStr "") JUndefined JUndefined
                 (JStr "quota_exceeded") (JStr "rate_limit"))
              eq_refl) as [He [Hc _]].
  split; [exact He | exact Hc].
Defined.

Lemma askBackend_readable (fetch : Transport) (request : ChatRequest.t)
    (response : Response.t) :
  fetch (chatRequest request) = Normal response ->
  readable response ->
  exists reply suggestions sessionId,
    askBackend fetch request
    = Normal (ChatResponse.make reply suggestions sessionId JUndefined JUndefined).
Proof.
  intros Hfetch [Hok [data [Hjson Hdata]]]. unfold askBackend.
  rewrite Hfetch, Hok, Hjson. cbn [negb bind].
  rewrite chain3, !chain2 by exact Hdata. cbn [bind tryCatch].
  now eexists _, _, _.
Qed.

Lemma handleNetworkError_truthy (failure : Thrown) :
  truthy (ChatResponse.error (handleNetworkError failure)) = true.
Proof. destruct (handleNetworkError_cases failure) as [-> | ->]; reflexivity. Qed.

Lemma askBackend_error_cases (fetch : Transport) (request : ChatRequest.t)
    (r : ChatResponse.t) :
  askBackend fetch request = Normal r ->
  (truthy (ChatResponse.error r) = true
   /\ ~ (exists response,
           fetch (chatRequest request) = Normal response /\ readable response))
  \/ (ChatResponse.error r = JUndefined
      /\ exists response,
           fetch (chatRequest request) = Normal response /\ readable response).
Proof.
  intros H.
  assert (Hfailed : truthy (ChatResponse.error r) = true ->
                    ~ (exists response,
                         fetch (chatRequest request) = Normal response
                         /\ readable response)).
  { intros Ht [response [Hfetch Hread]].
    destruct (askBackend_readable fetch request response Hfetch Hread)
      as [a [b [c Heq]]].
    rewrite Heq in H. inversion H; subst. discriminate. }
  assert (Hcases : truthy (ChatResponse.error r) = true
                   \/ (ChatResponse.error r = JUndefined
                       /\ exists response,
                            fetch (chatRequest request) = Normal response
                            /\ readable response)).
  { unfold askBackend in H.
    destruct (fetch (chatRequest request)) as [response|e] eqn:Hfetch.
    - destruct (Response.ok response) eqn:Hok; cbn [negb] in H.
      + destruct (Response.json response) as [data|e] eqn:Hjson.
        * destruct (nullish data) eqn:Hdata.
          -- left. destruct data; try discriminate; cbn in H;
               inversion H; reflexivity.
          -- right. assert (Hread : readable response)
               by (split; [exact Hok | now exists data]).
             destruct (askBackend_readable fetch request response Hfetch Hread)
               as [a [b [c Heq]]].
             unfold askBackend in Heq. rewrite Hfetch, Hok in Heq.
             cbn [negb] in Heq. rewrite Hjson in Heq. rewrite Heq in H.
             inversion H; subst. split; [reflexivity | now exists response].
        * left. cbn [bind tryCatch] in H. inversion H.
          apply handleNetworkError_truthy.
      + left. now apply (handleErrorResponse_shape response r).
    - left. inversion H. apply handleNetworkError_truthy. }
  destruct Hcases as [Ht | Hu]; [left; split; [exact Ht | now apply Hfailed] | now right].
Qed.

(** X5. A response of [askBackend] is free of [error] exactly when
    the transport answered with a 2xx response whose body parses to
    something other than [null]; in every other case the [error] is
    truthy, so that the caller's test of [response.error] tells the two
    apart. *)
Theorem askBackend_error_free_iff (fetch : Transport) (request : ChatRequest.t)
    (r : ChatResponse.t) :
  askBackend fetch request = Normal r ->
  (ChatResponse.error r = JUndefined
   <-> exists response,
         fetch (chatRequest request) = Normal response /\ readable response)
  /\ (ChatResponse.error r = JUndefined \/ truthy (ChatResponse.error r) = true).
Proof.
  intros H.
  destruct (askBackend_error_cases fetch request r H) as [[Ht Hno] | [Hu Hr]].
  - split; [|now right]. split; [|intros Hr; now elim Hno].
    intros Hu. rewrite Hu in Ht. discriminate.
  - split; [|now left]. split; [intros _; exact Hr | intros _; exact Hu].
Qed.

Lemma askBackend_error_free_iff_witness :
  (JUndefined = JUndefined
   <-> exists response,
         alwaysFine (chatRequest someRequest) = Normal response
         /\ readable response)
  /\ (JUndefined = JUndefined \/ truthy JUndefined = true).
Proof.
  exact (askBackend_error_free_iff alwaysFine someRequest
           (ChatResponse.make (JStr "Va bene") (JArr []) (JStr "abc")
              JUndefined JUndefined)
           eq_refl).
Defined.

(** X6. The body built for a request has the keys [session_id] and
    [locale], then at most one of [messages] and [message], and no
    other key.  It carries neither of the two exactly when the request
    has no message list or an empty one and no single message or an
    empty one: the body of such a request is [session_id] and [locale]
    only. *)
Theorem chatBody_one_or_none (request : ChatRequest.t) :
  (lookup "messages" (bodyFields (chatBody request)) = None
   \/ lookup "message" (bodyFields (chatBody request)) = None)
  /\ (lookup "messages" (bodyFields (chatBody request)) = None
      /\ lookup "message" (bodyFields (chatBody request)) = None
      <-> (ChatRequest.messages request = None
           \/ ChatRequest.messages request = Some [])
          /\ (ChatRequest.message request = None
              \/ ChatRequest.message request = Some ""))
  /\ (exists last,
        map fst (bodyFields (chatBody request))
        = ("session_id" :: "locale" :: last)%list
        /\ (last = [] \/ last = ["messages"] \/ last = ["message"]))
  /\ (lookup "messages" (bodyFields (chatBody request)) = None ->
      lookup "message" (bodyFields (chatBody request)) = None ->
      chatBody request
      = JObj [("session_id", optional JStr (ChatRequest.sessionId request));
              ("locale", optional localeValue (ChatRequest.locale request))]).
Proof.
  destruct request as [message messages sessionId locale].
  unfold chatBody. cbn [ChatRequest.message ChatRequest.messages
    ChatRequest.sessionId ChatRequest.locale].
  destruct messages as [[|m0 ms]|]; destruct message as [m|];
    try destruct (m =? "") eqn:Hm; cbn [optional truthy andb negb]; rewrite ?Hm;
    try (apply String.eqb_eq in Hm; subst m);
    try (apply String.eqb_neq in Hm);
    cbn;
    (split; [first [left; reflexivity | right; reflexivity]|]);
    (split;
     [split;
      [ intros [H1 H2]; try discriminate H1; try discriminate H2; split; auto
      | intros [[H1|H1] [H2|H2]]; try discriminate H1; try discriminate H2;
        try (inversion H2; subst; contradiction); split; reflexivity ]|]);
    (split;
     [ eexists; split; [reflexivity | tauto]
     | intros H1 H2; try discriminate H1; try discriminate H2; reflexivity ]).
Qed.

Lemma escalate_failure_truthy (fetch : Transport) (request : EscalateRequest.t) :
  EscalateResult.success (escalate fetch request) = false ->
  truthy (EscalateResult.error (escalate fetch request)) = true.
Proof.
  unfold escalate.
  destruct (fetch (escalateRequest request)) as [response|e]; cbn [bind tryCatch].
  - destruct (Response.ok response); cbn [negb]; [discriminate|].
    destruct (handleErrorResponse response) as [r|e] eqn:Hr; cbn [bind tryCatch].
    + intros _. now apply (handleErrorResponse_shape response r).
    + intros _. apply handleNetworkError_truthy.
  - intros _. apply handleNetworkError_truthy.
Qed.

Lemma escalate_success_iff (fetch : Transport) (request : EscalateRequest.t) :
  EscalateResult.success (escalate fetch request) = true
  <-> exists response,
        fetch (escalateRequest request) = Normal response
        /\ Response.ok response = true.
Proof.
  unfold escalate.
  destruct (fetch (escalateRequest request)) as [response|e]; cbn [bind tryCatch].
  - destruct (Response.ok response) eqn:Hok; cbn [negb].
    + split; [intros _; now exists response | reflexivity].
    + destruct (handleErrorResponse response); cbn [bind tryCatch];
        (split; [discriminate|]); intros [r [H Hr]]; inversion H; subst; congruence.
  - split; [discriminate|]. intros [r [H _]]. discriminate.
Qed.

(** X7. A failed [escalate] always names a category: whenever
    [success] is false the [error] is truthy, be it from the error
    classifier or from the network-error classifier. *)
Theorem escalate_failure_named (fetch : Transport) (request : EscalateRequest.t) :
  EscalateResult.success (escalate fetch request) = false ->
  truthy (EscalateResult.error (escalate fetch request)) = true.
Proof. exact (escalate_failure_truthy fetch request). Qed.

Lemma escalate_failure_named_witness :
  truthy (EscalateResult.error
            (escalate serverDown (EscalateRequest.make None "user_requested" [])))
  = true.
Proof.
  apply (escalate_failure_named serverDown
           (EscalateRequest.make None "user_requested" [])).
  reflexivity.
Defined.

(** X22. [escalate] reports by what happened.  It reports success, and
    then no [error], exactly after a 2xx response.  After any other
    response whose body is not [null] it reports failure with the
    category the error classifier computes from the body and the status,
    and nothing of the code.  After a transport failure it reports
    failure with the category of the network-error classifier, and so it
    does when the error classifier throws. *)
Theorem escalate_outcomes (fetch : Transport) (request : EscalateRequest.t) :
  (EscalateResult.success (escalate fetch request) = true
   <-> exists response,
         fetch (escalateRequest request) = Normal response
         /\ Response.ok response = true)
  /\ (EscalateResult.success (escalate fetch request) = true ->
      escalate fetch request = EscalateResult.make true JUndefined)
  /\ (forall response,
        fetch (escalateRequest request) = Normal response ->
        Response.ok response = false ->
        nullish (errorBody response) = false ->
        escalate fetch request
        = EscalateResult.make false
            (category (extractedCode response) (Response.status response)
               (extractedMessage response)))
  /\ (forall failure,
        fetch (escalateRequest request) = Throw failure ->
        escalate fetch request
        = EscalateResult.make false
            (ChatResponse.error (handleNetworkError failure)))
  /\ (forall response failure,
        fetch (escalateRequest request) = Normal response ->
        Response.ok response = false ->
        handleErrorResponse response = Throw failure ->
        escalate fetch request
        = EscalateResult.make false
            (ChatResponse.error (handleNetworkError failure))).
Proof.
  split; [apply escalate_success_iff|]. unfold escalate.
  destruct (fetch (escalateRequest request)) as [response|failure];
    cbn [bind tryCatch].
  - destruct (Response.ok response) eqn:Hok; cbn [negb].
    + repeat split; try reflexivity.
      * intros r H. inversion H; subst. congruence.
      * discriminate.
      * intros r f H. inversion H; subst. congruence.
    + repeat split.
      * destruct (handleErrorResponse response); discriminate.
      * intros r H _ Hbody. inversion H; subst r.
        now rewrite (handleErrorResponse_readable response Hbody).
      * discriminate.
      * intros r f H _ Hf. inversion H; subst r. now rewrite Hf.
  - repeat split; try discriminate.
    intros f H. now inversion H.
Qed.

Lemma escalate_outcomes_witness :
  escalate (fun _ => Normal rateLimited)
    (EscalateRequest.make (Some "abc") "user_requested" [])
  = EscalateResult.make false (JStr "quota_exceeded")
  /\ escalate (fun _ => Throw (ErrorObject "Failed to fetch"))
       (EscalateRequest.make (Some "abc") "user_requested" [])
     = EscalateResult.make false (JStr "network_error")
  /\ escalate
       (fun _ => Normal (Response.make 204
                           (Throw (ErrorObject "Unexpected end of JSON input"))))
       (EscalateRequest.make (Some "abc") "user_requested" [])
     = EscalateResult.make true JUndefined.
Proof.
  split; [|split].
  - apply (proj1 (proj2 (proj2
             (escalate_outcomes (fun _ => Normal rateLimited)
                (EscalateRequest.make (Some "abc") "user_requested" []))))
             rateLimited);
      reflexivity.
  - apply (proj1 (proj2 (proj2 (proj2
             (escalate_outcomes (fun _ => Throw (ErrorObject "Failed to fetch"))
                (EscalateRequest.make (Some "abc") "user_requested" [])))))
             (ErrorObject "Failed to fetch")).
    reflexivity.
  - apply (proj1 (proj2
             (escalate_outcomes
                (fun _ => Normal (Response.make 204
                                    (Throw (ErrorObject "Unexpected end of JSON input"))))
                (EscalateRequest.make (Some "abc") "user_requested" [])))).
    reflexivity.
Defined.

(* ================================================================== *)
(** * Further properties of the component *)
(* ================================================================== *)

(** ** Trimming *)

Lemma allBlank_trimStart (s : string) : allBlank (trimStart s) = allBlank s.
Proof.
  induction s as [|c s IH]; [reflexivity|]. cbn.
  destruct (isBlank c) eqn:Hc; cbn; [exact IH | now rewrite Hc].
Qed.

Lemma trimEnd_empty_iff (s : string) : trimEnd s = "" <-> allBlank s = true.
Proof.
  induction s as [|c s IH]; cbn; [tauto|].
  destruct (trimEnd s) as [|d kept].
  - destruct (isBlank c); cbn.
    + tauto.
    + split; discriminate.
  - split; [discriminate|]. intros H. apply andb_true_iff in H as [_ H].
    apply IH in H. discriminate.
Qed.

Lemma trim_empty_iff (s : string) : trim s = "" <-> allBlank s = true.
Proof. unfold trim. now rewrite trimEnd_empty_iff, allBlank_trimStart. Qed.

Lemma trimEnd_idempotent (s : string) : trimEnd (trimEnd s) = trimEnd s.
Proof.
  induction s as [|c s IH]; [reflexivity|]. cbn.
  destruct (trimEnd s) as [|d kept] eqn:Hs.
  - destruct (isBlank c) eqn:Hc; cbn; [reflexivity | now rewrite Hc].
  - cbn [trimEnd] in *. now rewrite IH.
Qed.

Lemma trimStart_head (s : string) :
  trimStart s = "" \/ exists c rest, trimStart s = String c rest /\ isBlank c = false.
Proof.
  induction s as [|c s IH]; [now left|]. cbn.
  destruct (isBlank c) eqn:Hc; [exact IH|]. right. now exists c, s.
Qed.

Lemma trim_idempotent (s : string) : trim (trim s) = trim s.
Proof.
  unfold trim. destruct (trimStart_head s) as [-> | [c [rest [-> Hc]]]];
    [reflexivity|].
  assert (Hstart : trimStart (trimEnd (String c rest)) = trimEnd (String c rest)).
  { cbn. destruct (trimEnd rest); cbn; now rewrite Hc; cbn; rewrite ?Hc. }
  now rewrite Hstart, trimEnd_idempotent.
Qed.

(** ** The language effect *)

Lemma languageEffect_last (engine : Engine.t) (locale : Locale)
    (messages : list Message.t) (m : Message.t) :
  isUser m = false -> languageEffect engine locale (messages ++ [m]) = locale.
Proof.
  intros Hm. unfold languageEffect. rewrite map_app. cbn [map].
  rewrite last_last. unfold isUser in Hm.
  destruct (Message.role m); [discriminate | reflexivity | reflexivity].
Qed.

(** X8. The language effect looks at the last message only and only
    when the user wrote it: after an answer of the assistant or a system
    message, whatever it says, and on the empty list, the locale stays;
    and running the effect again on the same list changes nothing. *)
Theorem languageEffect_stable (engine : Engine.t) (locale : Locale)
    (messages : list Message.t) :
  (forall m, isUser m = false ->
             languageEffect engine locale (messages ++ [m]) = locale)
  /\ languageEffect engine locale [] = locale
  /\ languageEffect engine (languageEffect engine locale messages) messages
     = languageEffect engine locale messages.
Proof.
  split; [intros m; apply languageEffect_last|]. split; [reflexivity|].
  unfold languageEffect.
  destruct (last (map Some messages) None) as [m|]; [|reflexivity].
  destruct (Message.role m); try reflexivity.
  destruct (Message.content m); try reflexivity.
  destruct (test englishPattern (Engine.toLowerCase engine s)); [reflexivity|].
  destruct (test italianPattern (Engine.toLowerCase engine s)); reflexivity.
Qed.

Lemma languageEffect_stable_witness :
  languageEffect asciiEngine it
    (withUserMessage [] "ciao" None
     ++ [Message.make assistant (JStr "Do you prefer English?") None])
  = it.
Proof.
  apply (proj1 (languageEffect_stable asciiEngine it
                  (withUserMessage [] "ciao" None))
           (Message.make assistant (JStr "Do you prefer English?") None)).
  reflexivity.
Defined.

Section Sending.

Variable mint : list string -> string.
Variable greeting : string.
Variable toText : JsVal -> string.
Variable jsonText : JsVal -> string.
Variable engine : Engine.t.

Local Abbreviation send := (sendMessage mint greeting toText jsonText engine).
Local Abbreviation sendMany := (sendAll mint greeting toText jsonText engine).
Local Abbreviation mounting := (ensureSidAndGreeting mint greeting).
Local Abbreviation retry := (retryLastMessage mint greeting toText jsonText engine).
Local Abbreviation answer := (answerMessages toText jsonText).
Local Abbreviation trimmed := (Engine.trim engine).
Local Abbreviation lowered := (Engine.toLowerCase engine).

Lemma showResponse_eq (clock : Clock.t) (v : View.t)
    (response : Completion ChatResponse.t) :
  showResponse toText jsonText clock v response
  = View.make (View.locale v)
      (View.messages v
       ++ answer (Clock.atAnswer clock) (Clock.atSuggestions clock) response)
      (View.input v) (View.isTyping v) (View.sessionId v).
Proof.
  unfold showResponse, answerMessages, appendMessage.
  destruct response as [r|e]; [|reflexivity].
  destruct (truthy (ChatResponse.error r)); [reflexivity|].
  destruct (hasLength (ChatResponse.suggestions r)); cbn; [|reflexivity].
  now rewrite <- app_assoc.
Qed.

Lemma answer_last (shown later : float) (response : Completion ChatResponse.t) :
  exists before m,
    answer shown later response = (before ++ [m])%list /\ isUser m = false.
Proof.
  unfold answerMessages. destruct response as [r|e].
  - destruct (truthy (ChatResponse.error r)).
    + now eexists [], _.
    + destruct (hasLength (ChatResponse.suggestions r)).
      * now eexists [_], _.
      * now eexists [], _.
  - now eexists [], _.
Qed.

Lemma languageEffect_answer (locale : Locale) (messages : list Message.t)
    (shown later : float) (response : Completion ChatResponse.t) :
  languageEffect engine locale (messages ++ answer shown later response) = locale.
Proof.
  destruct (answer_last shown later response) as [before [m [-> Hm]]].
  rewrite app_assoc. now apply languageEffect_last.
Qed.

(** What a send of a message that does not trim to nothing leaves
    behind. *)
Lemma sendMessage_sent (fetch : Transport) (clock : Clock.t) (w : World.t)
    (content : string) :
  trimmed content <> "" ->
  let shown := (View.messages (World.view w)
                ++ greetingFor greeting (Clock.atGreeting clock) w
                ++ [userMessage (Clock.atUserMessage clock) (trimmed content)])%list in
  send fetch clock w content
  = (World.make
       (View.make (languageEffect engine (View.locale (World.view w)) shown)
          (shown ++ answer (Clock.atAnswer clock) (Clock.atSuggestions clock)
                      (askBackend fetch (requestFor mint w (trimmed content))))
          "" false
          (if needsSession w then Some (sessionFor mint w)
           else View.sessionId (World.view w)))
       (if needsSession w
        then setItem (World.storage w) SID_KEY (sessionFor mint w)
        else World.storage w)
       (if needsSession w
        then Build_Backend (sessionFor mint w :: issued (World.backend w))
        else World.backend w),
     ((if needsSession w then [StartCall startRequest] else [])
      ++ [AskCall (requestFor mint w (trimmed content))])%list).
Proof.
  intros Hblank shown. subst shown. apply String.eqb_neq in Hblank.
  unfold sendMessage, requestFor, sessionFor, greetingFor, needsSession, userMessage.
  cbn [truthy]. rewrite Hblank. cbn [negb].
  destruct w as [v store backend]. cbn [World.view World.storage World.backend].
  destruct (nonEmpty (orStored (View.sessionId v) (getItem store SID_KEY))) eqn:Hsid;
    cbn [negb andb].
  - cbn [World.view World.storage World.backend app].
    rewrite showResponse_eq. unfold rendered, appendMessage.
    cbn [View.locale View.messages View.input View.isTyping View.sessionId].
    rewrite languageEffect_answer. reflexivity.
  - unfold openSession, start.
    cbn [StartResult.session_id StartResult.reply World.view World.storage
         World.backend issued].
    cbn [truthy]. destruct (greeting =? ""); cbn [negb andb app];
      rewrite showResponse_eq; unfold rendered, appendMessage, setSessionId;
      cbn [View.locale View.messages View.input View.isTyping View.sessionId
           World.view World.storage World.backend];
      rewrite languageEffect_answer, <- ?app_assoc; reflexivity.
Qed.

Lemma last_app_nonempty (a b : list Message.t) (d : Message.t) :
  b <> [] -> last (a ++ b) d = last b d.
Proof.
  intros Hb. induction a as [|x a IH]; [reflexivity|].
  cbn [app]. change (last (x :: (a ++ b)) d) with
    (match (a ++ b)%list with [] => x | _ :: _ => last (a ++ b) d end).
  destruct (a ++ b)%list eqn:Hab; [|exact IH].
  apply app_eq_nil in Hab as [_ Hb']. contradiction.
Qed.

Lemma sendMessage_unsent (fetch : Transport) (clock : Clock.t) (w : World.t)
    (content : string) :
  (snd (send fetch clock w content) = [] <-> trimmed content = "")
  /\ (trimmed content = "" -> send fetch clock w content = (w, [])).
Proof.
  destruct (trimmed content =? "") eqn:Hblank.
  - apply String.eqb_eq in Hblank.
    assert (H : send fetch clock w content = (w, []))
      by (unfold sendMessage; cbn [truthy]; now rewrite Hblank).
    rewrite H. split; [tauto | reflexivity].
  - apply String.eqb_neq in Hblank.
    rewrite (sendMessage_sent fetch clock w content Hblank). cbn [snd].
    split; [|intros H; contradiction]. split; [|intros H; contradiction].
    intros H. apply app_eq_nil in H as [_ H]. discriminate.
Qed.

(** X9. [sendMessage] leaves everything as it was and calls nothing
    exactly when the message trims to nothing, and any other message
    makes it call the client.  For ASCII text, that is exactly when the
    text is empty or holds blanks only (tab, line feed, vertical tab,
    form feed, carriage return, space). *)
Theorem sendMessage_blank_iff (fetch : Transport) (clock : Clock.t) (w : World.t)
    (content : string) :
  (snd (send fetch clock w content) = [] <-> trimmed content = "")
  /\ (trimmed content = "" -> send fetch clock w content = (w, []))
  /\ (agreesOnAscii engine -> isAscii content = true ->
      (snd (send fetch clock w content) = [] <-> allBlank content = true)
      /\ (allBlank content = true -> send fetch clock w content = (w, []))).
Proof.
  destruct (sendMessage_unsent fetch clock w content) as [Hiff Hsame].
  split; [exact Hiff|]. split; [exact Hsame|].
  intros Hengine Hascii. rewrite <- trim_empty_iff.
  rewrite <- (proj1 (Hengine content Hascii)). split; assumption.
Qed.

(** X10. A send of a message that does not trim to nothing appends, in
    this order: the greeting of [start] when a session had to be opened
    and there is one, the user's message with the trimmed text, and the
    answer, which is one message or, with suggestions, two.  Each of
    them carries the reading of the clock taken when it was made.  The
    send ends with the input cleared and the typing indicator off,
    however the request went. *)
Theorem sendMessage_appends (fetch : Transport) (clock : Clock.t) (w : World.t)
    (content : string) :
  trimmed content <> "" ->
  View.messages (World.view (fst (send fetch clock w content)))
  = (View.messages (World.view w)
     ++ greetingFor greeting (Clock.atGreeting clock) w
     ++ [userMessage (Clock.atUserMessage clock) (trimmed content)]
     ++ answer (Clock.atAnswer clock) (Clock.atSuggestions clock)
          (askBackend fetch (requestFor mint w (trimmed content))))%list
  /\ (1 <= List.length
             (answer (Clock.atAnswer clock) (Clock.atSuggestions clock)
                (askBackend fetch (requestFor mint w (trimmed content))))
      <= 2)%nat
  /\ View.isTyping (World.view (fst (send fetch clock w content))) = false
  /\ View.input (World.view (fst (send fetch clock w content))) = "".
Proof.
  intros Htrim.
  rewrite (sendMessage_sent fetch clock w content Htrim).
  cbn [fst World.view View.messages View.isTyping View.input].
  split; [now rewrite <- !app_assoc|]. split; [|split; reflexivity].
  unfold answerMessages.
  destruct (askBackend fetch (requestFor mint w (trimmed content))) as [r|e];
    cbn; [|lia].
  destruct (truthy (ChatResponse.error r)); cbn; [lia|].
  destruct (hasLength (ChatResponse.suggestions r)); cbn; lia.
Qed.

Lemma sendMessage_extends (fetch : Transport) (clock : Clock.t) (w : World.t)
    (content : string) :
  extends (View.messages (World.view w))
    (View.messages (World.view (fst (send fetch clock w content)))).
Proof.
  destruct (trimmed content =? "") eqn:Hblank.
  - unfold sendMessage. cbn [truthy]. rewrite Hblank. cbn. exists []. now rewrite app_nil_r.
  - apply String.eqb_neq in Hblank.
    rewrite (sendMessage_sent fetch clock w content Hblank). cbn.
    eexists. rewrite <- !app_assoc. reflexivity.
Qed.

(** X11. Neither the mount effect nor any run of sends takes a
    message back or alters one: the list before is the beginning of the
    list after. *)
Theorem history_kept (w : World.t) :
  (forall now,
     extends (View.messages (World.view w))
       (View.messages (World.view (fst (mounting now w)))))
  /\ (forall sends,
        extends (View.messages (World.view w))
          (View.messages (World.view (fst (sendMany w sends))))).
Proof.
  split.
  - intros now. unfold ensureSidAndGreeting.
    destruct (nonEmpty (View.sessionId (World.view w)));
      [exists []; now rewrite app_nil_r|].
    destruct (nonEmpty (getItem (World.storage w) SID_KEY)); cbn [negb].
    + exists []. cbn. now rewrite app_nil_r.
    + unfold openSession, start. cbn [StartResult.reply StartResult.session_id].
      destruct (truthy (JStr greeting)); cbn.
      * eexists [_]. reflexivity.
      * exists []. now rewrite app_nil_r.
  - intros sends. revert w.
    induction sends as [|[[fetch clock] content] sends IH]; intros w.
    + exists []. cbn. now rewrite app_nil_r.
    + cbn [sendAll].
      pose proof (sendMessage_extends fetch clock w content) as [added1 H1].
      destruct (send fetch clock w content) as [w' calls]. cbn [fst] in H1.
      pose proof (IH w') as [added2 H2].
      destruct (sendMany w' sends) as [w'' calls']. cbn [fst] in *.
      exists (added1 ++ added2)%list. now rewrite H2, H1, app_assoc.
Qed.

(** X12. After a send of a message that does not trim to nothing the
    list ends with an error message, "error:" followed by the category,
    exactly when the request failed, that is unless the transport
    answered with a 2xx response whose body parses to something other
    than [null].  A rejection of [askBackend] is shown as
    [unknown_error]. *)
Theorem sendMessage_shows_failure (fetch : Transport) (clock : Clock.t)
    (w : World.t) (content : string) :
  trimmed content <> "" ->
  (isErrorMessage
     (last (View.messages (World.view (fst (send fetch clock w content))))
        (userMessage (Clock.atUserMessage clock) (trimmed content))) = true
   <-> ~ (exists response,
            fetch (chatRequest (requestFor mint w (trimmed content)))
            = Normal response
            /\ readable response))
  /\ (forall failure,
        askBackend fetch (requestFor mint w (trimmed content)) = Throw failure ->
        last (View.messages (World.view (fst (send fetch clock w content))))
          (userMessage (Clock.atUserMessage clock) (trimmed content))
        = systemMessage (Clock.atAnswer clock) "error:unknown_error").
Proof.
  intros Htrim.
  rewrite (sendMessage_sent fetch clock w content Htrim).
  cbn [fst World.view View.messages].
  assert (Hne : answer (Clock.atAnswer clock) (Clock.atSuggestions clock)
                  (askBackend fetch (requestFor mint w (trimmed content))) <> []).
  { destruct (answer_last (Clock.atAnswer clock) (Clock.atSuggestions clock)
                (askBackend fetch (requestFor mint w (trimmed content))))
      as [before [m [-> _]]]. now destruct before. }
  rewrite (last_app_nonempty _ _ _ Hne).
  destruct (askBackend fetch (requestFor mint w (trimmed content)))
    as [r|e] eqn:Hask.
  - split; [|intros f Hf; discriminate].
    destruct (askBackend_error_cases fetch _ r Hask) as [[Ht Hno] | [Hu Hr]];
      unfold answerMessages.
    + rewrite Ht. cbn. tauto.
    + rewrite Hu. cbn [truthy].
      destruct (hasLength (ChatResponse.suggestions r)); cbn;
        split; try discriminate; intros H; now elim H.
  - split; [|intros f _; reflexivity]. cbn. split; [|reflexivity].
    intros _ [response [Hfetch Hread]].
    destruct (askBackend_readable fetch _ response Hfetch Hread) as [a [b [c H]]].
    congruence.
Qed.

(** X13. The request of a send carries the locale the component had
    before the message was looked at, while the component goes on in the
    locale the message asks for, which the two patterns read off the
    trimmed and lower-cased message: a message that switches the
    language is itself still sent in the old one. *)
Theorem sendMessage_locale (fetch : Transport) (clock : Clock.t) (w : World.t)
    (content : string) :
  trimmed content <> "" ->
  (forall request,
     In (AskCall request) (snd (send fetch clock w content)) ->
     ChatRequest.locale request = Some (View.locale (World.view w)))
  /\ View.locale (World.view (fst (send fetch clock w content)))
     = if test englishPattern (lowered (trimmed content)) then en
       else if test italianPattern (lowered (trimmed content)) then it
       else View.locale (World.view w).
Proof.
  intros Htrim.
  rewrite (sendMessage_sent fetch clock w content Htrim).
  cbn [fst snd World.view View.locale]. split.
  - intros request Hin. apply in_app_or in Hin as [Hin | [Hin | []]].
    + destruct (needsSession w); [destruct Hin as [H | []]; discriminate | destruct Hin].
    + inversion Hin. reflexivity.
  - rewrite app_assoc. unfold userMessage.
    apply (languageEffect_withUserMessage engine (View.locale (World.view w))
             (View.messages (World.view w)
              ++ greetingFor greeting (Clock.atGreeting clock) w)
             (trimmed content) (Some (Clock.atUserMessage clock))).
Qed.

(** X14. On mounting with an identifier already stored, the component
    adopts it without a [start] call and without a greeting; and the
    mount effect opens a session at most once: run again on the state it
    left, it does nothing. *)
Theorem mount_once (now : float) (w : World.t) :
  (forall known, mint known <> "") ->
  (forall sid,
     View.sessionId (World.view w) = None ->
     getItem (World.storage w) SID_KEY = Some sid -> sid <> "" ->
     mounting now w
     = (World.make (setSessionId (World.view w) (Some sid))
          (World.storage w) (World.backend w), []))
  /\ (forall later,
        mounting later (fst (mounting now w)) = (fst (mounting now w), [])).
Proof.
  intros Hmint. split.
  - intros sid Hstate Hstore Hsid. unfold ensureSidAndGreeting.
    rewrite Hstate, Hstore, (nonEmpty_Some sid Hsid). reflexivity.
  - intros later. unfold ensureSidAndGreeting at 2 3.
    destruct (nonEmpty (View.sessionId (World.view w))) eqn:Hstate.
    + cbn [fst]. unfold ensureSidAndGreeting. now rewrite Hstate.
    + destruct (nonEmpty (getItem (World.storage w) SID_KEY)) eqn:Hstore;
        cbn [negb].
      * cbn [fst]. unfold ensureSidAndGreeting.
        cbn [World.view setSessionId View.sessionId]. now rewrite Hstore.
      * unfold openSession, start. cbn [StartResult.session_id fst].
        unfold ensureSidAndGreeting.
        cbn [World.view setSessionId View.sessionId].
        now rewrite (nonEmpty_Some _ (Hmint (issued (World.backend w)))).
Qed.

Lemma find_all_false (f : Message.t -> bool) (l : list Message.t) :
  (forall m, In m l -> f m = false) -> find f l = None.
Proof.
  induction l as [|x l IH]; intros H; [reflexivity|]. cbn.
  rewrite (H x (or_introl eq_refl)). apply IH. intros m Hm. apply H. now right.
Qed.

(** X15. [retryLastMessage] does nothing while the user has written
    nothing.  When the list ends with the user's last message followed
    by one other message, the retry takes that other message off, sends
    the text of the user's message again and shows it a second time,
    after the first: the list goes on as after a plain send of the text,
    each new message with a reading of the clock of its own. *)
Theorem retryLastMessage_resends (fetch : Transport) (clock : Clock.t)
    (w : World.t) :
  (forallb (fun m => negb (isUser m)) (View.messages (World.view w)) = true ->
   retry fetch clock w = (w, []))
  /\ (forall earlier text ts failure,
        View.messages (World.view w)
        = (earlier ++ [Message.make user (JStr text) ts; failure])%list ->
        isUser failure = false ->
        trimmed text <> "" ->
        View.messages (World.view (fst (retry fetch clock w)))
        = (earlier ++ [Message.make user (JStr text) ts]
           ++ greetingFor greeting (Clock.atGreeting clock) w
           ++ [userMessage (Clock.atUserMessage clock) (trimmed text)]
           ++ answer (Clock.atAnswer clock) (Clock.atSuggestions clock)
                (askBackend fetch (requestFor mint w (trimmed text))))%list
        /\ snd (retry fetch clock w)
           = ((if needsSession w then [StartCall startRequest] else [])
              ++ [AskCall (requestFor mint w (trimmed text))])%list).
Proof.
  split.
  - intros Hnone. unfold retryLastMessage, lastUserMessage.
    assert (H : find (fun m => match Message.role m with user => true | _ => false end)
                  (rev (View.messages (World.view w))) = None).
    { apply find_all_false. intros m Hin. apply in_rev in Hin.
      rewrite forallb_forall in Hnone. specialize (Hnone m Hin).
      unfold isUser in Hnone. now destruct (Message.role m). }
    now rewrite H.
  - intros earlier text ts failure Hms Hfail Htrim.
    unfold retryLastMessage, lastUserMessage, dropLast. rewrite Hms.
    rewrite rev_app_distr. cbn [rev app find Message.role].
    unfold isUser in Hfail.
    replace (match Message.role failure with user => true | _ => false end)
      with false by (now destruct (Message.role failure)).
    cbn [Message.content].
    change (earlier ++ [Message.make user (JStr text) ts; failure])%list
      with (earlier ++ [Message.make user (JStr text) ts] ++ [failure])%list.
    rewrite app_assoc, removelast_last.
    rewrite (sendMessage_sent fetch clock _ text Htrim).
    cbn [fst snd World.view World.storage World.backend View.messages
         View.locale View.sessionId].
    split; [now rewrite <- !app_assoc | reflexivity].
Qed.

End Sending.

Lemma sendMessage_blank_iff_witness :
  sendMessage longerId "Ciao!" plainText (fun _ => "") asciiEngine alwaysFine
    (clockAt 1) blankWorld "   "
  = (blankWorld, []).
Proof.
  exact (proj2 (proj2 (proj2 (sendMessage_blank_iff longerId "Ciao!" plainText
                                (fun _ => "") asciiEngine alwaysFine (clockAt 1)
                                blankWorld "   "))
                  asciiEngine_agrees eq_refl)
           eq_refl).
Defined.

Lemma sendMessage_appends_witness :
  View.messages (World.view
    (fst (sendMessage longerId "Ciao!" plainText (fun _ => "") asciiEngine
            alwaysFine (clockAt 1) blankWorld " hello ")))
  = [Message.make assistant (JStr "Ciao!") (Some 1%float);
     Message.make user (JStr "hello") (Some 2%float);
     Message.make assistant (JStr "Va bene") (Some 802%float)]
  /\ View.isTyping (World.view
       (fst (sendMessage longerId "Ciao!" plainText (fun _ => "") asciiEngine
               alwaysFine (clockAt 1) blankWorld " hello "))) = false.
Proof.
  assert (Htrim : Engine.trim asciiEngine " hello " <> "") by discriminate.
  destruct (sendMessage_appends longerId "Ciao!" plainText (fun _ => "")
              asciiEngine alwaysFine (clockAt 1) blankWorld " hello " Htrim)
    as [Hlist [_ [Htyping _]]].
  split; [exact Hlist | exact Htyping].
Defined.

Lemma sendMessage_shows_failure_witness :
  last (View.messages (World.view
          (fst (sendMessage longerId "Ciao!" plainText (fun _ => "") asciiEngine
                  serverDown (clockAt 1) blankWorld "hello"))))
    (userMessage 2%float "hello")
  = systemMessage 802%float "error:server_error"
  /\ isErrorMessage
       (last (View.messages (World.view
                (fst (sendMessage longerId "Ciao!" plainText (fun _ => "")
                        asciiEngine serverDown (clockAt 1) blankWorld "hello"))))
          (userMessage 2%float "hello")) = true.
Proof.
  split; [reflexivity|].
  assert (Htrim : Engine.trim asciiEngine "hello" <> "") by discriminate.
  apply (proj1 (sendMessage_shows_failure longerId "Ciao!" plainText
                  (fun _ => "") asciiEngine serverDown (clockAt 1) blankWorld
                  "hello" Htrim)).
  intros [response [Hfetch [Hok _]]]. inversion Hfetch; subst. discriminate Hok.
Defined.

Lemma sendMessage_locale_witness :
  View.locale (World.view
    (fst (sendMessage longerId "Ciao!" plainText (fun _ => "") asciiEngine
            alwaysFine (clockAt 1) italianWorld "In english, please")))
  = en
  /\ ChatRequest.locale
       (ChatRequest.make (Some "In english, please") None (Some "abc") (Some it))
     = Some it.
Proof.
  assert (Htrim : Engine.trim asciiEngine "In english, please" <> "")
    by discriminate.
  destruct (sendMessage_locale longerId "Ciao!" plainText (fun _ => "")
              asciiEngine alwaysFine (clockAt 1) italianWorld
              "In english, please" Htrim)
    as [Hrequest Hlocale].
  split; [exact Hlocale|].
  apply Hrequest. left. reflexivity.
Defined.

Lemma mount_once_witness :
  ensureSidAndGreeting longerId "Ciao!" 2%float
    (fst (ensureSidAndGreeting longerId "Ciao!" 1%float blankWorld))
  = (fst (ensureSidAndGreeting longerId "Ciao!" 1%float blankWorld), []).
Proof.
  exact (proj2 (mount_once longerId "Ciao!" 1%float blankWorld longerId_nonEmpty)
           2%float).
Defined.

Lemma retryLastMessage_resends_witness :
  View.messages (World.view
    (fst (retryLastMessage longerId "Ciao!" plainText (fun _ => "") asciiEngine
            alwaysFine (clockAt 3000) failedWorld)))
  = [Message.make user (JStr "hello") (Some 1%float);
     Message.make user (JStr "hello") (Some 3001%float);
     Message.make assistant (JStr "Va bene") (Some 3801%float)].
Proof.
  assert (Htrim : Engine.trim asciiEngine "hello" <> "") by discriminate.
  exact (proj1 (proj2 (retryLastMessage_resends longerId "Ciao!" plainText
                         (fun _ => "") asciiEngine alwaysFine (clockAt 3000)
                         failedWorld)
                  [] "hello" (Some 1%float)
                  (Message.make system (JStr "error:server_error") (Some 2%float))
                  eq_refl eq_refl Htrim)).
Defined.

(** ** Escalation and the health check *)

(** X16. [handleEscalate] closes the dialog and always reports: it
    appends one system message, which is the [escalated] text of the
    locale exactly when the response was 2xx and else "error:" followed
    by the category of the failure, which is never missing. *)
Theorem handleEscalate_reports (toText : JsVal -> string)
    (builtin : JsVal -> string -> JsVal) (fetch : Transport) (now : float)
    (v : View.t) (p : Panels.t) :
  Panels.showEscalateDialog (snd (handleEscalate toText builtin fetch now v p))
  = false
  /\ ((exists response,
         fetch (escalateRequest (escalation v)) = Normal response
         /\ Response.ok response = true) ->
      View.messages (fst (handleEscalate toText builtin fetch now v p))
      = (View.messages v
         ++ [Message.make system (t builtin (View.locale v) "escalated")
               (Some now)])%list)
  /\ (~ (exists response,
           fetch (escalateRequest (escalation v)) = Normal response
           /\ Response.ok response = true) ->
      View.messages (fst (handleEscalate toText builtin fetch now v p))
      = (View.messages v
         ++ [Message.make system
               (JStr ("error:"
                      ++ toText (EscalateResult.error
                                   (escalate fetch (escalation v)))))
               (Some now)])%list
      /\ truthy (EscalateResult.error (escalate fetch (escalation v))) = true).
Proof.
  unfold handleEscalate.
  pose proof (escalate_success_iff fetch (escalation v)) as Hiff.
  pose proof (escalate_failure_truthy fetch (escalation v)) as Hfail.
  destruct (EscalateResult.success (escalate fetch (escalation v))) eqn:Hs.
  - split; [reflexivity|]. split; [intros _; reflexivity|].
    intros Hno. elim Hno. now apply Hiff.
  - split; [reflexivity|]. split.
    + intros Hyes. apply Hiff in Hyes. discriminate.
    + intros _. rewrite (Hfail eq_refl). split; reflexivity.
Qed.

Lemma handleEscalate_reports_witness :
  View.messages
    (fst (handleEscalate plainText noBuiltin serverDown 1%float
            (View.make it [] "" false (Some "abc"))
            (Panels.make true false None)))
  = [Message.make system (JStr "error:server_error") (Some 1%float)]
  /\ View.messages
       (fst (handleEscalate plainText noBuiltin alwaysFine 1%float
               (View.make it [] "" false (Some "abc"))
               (Panels.make true false None)))
     = [Message.make system
          (JStr "Perfetto! Ti metto in contatto con un collega umano. Resta in linea.")
          (Some 1%float)].
Proof.
  split.
  - refine (proj1 (proj2 (proj2
              (handleEscalate_reports plainText noBuiltin serverDown 1%float
                 (View.make it [] "" false (Some "abc"))
                 (Panels.make true false None))) _)).
    intros [response [Hfetch Hok]]. inversion Hfetch; subst. discriminate Hok.
  - apply (proj1 (proj2
             (handleEscalate_reports plainText noBuiltin alwaysFine 1%float
                (View.make it [] "" false (Some "abc"))
                (Panels.make true false None)))).
    eexists. split; reflexivity.
Defined.

(** X17. After a health check the panel is shown with the [healthOk]
    text exactly for a 2xx response; for any other response it shows the
    [healthFail] text with the detail "HTTP " followed by the status;
    and for a thrown [Error] the detail is its message, left out when
    the message is empty. *)
Theorem healthPanel_after_check (builtin : JsVal -> string -> JsVal)
    (fetch : Transport) (locale : Locale) (p : Panels.t) :
  (forall response,
     fetch healthRequest = Normal response ->
     healthPanel builtin locale (handleHealthCheck fetch p)
     = if Response.ok response
       then Some (t builtin locale "healthOk", None)
       else Some (t builtin locale "healthFail",
                  Some (JStr ("HTTP " ++ showN (Response.status response)))))
  /\ (forall message,
        fetch healthRequest = Throw (ErrorObject message) ->
        healthPanel builtin locale (handleHealthCheck fetch p)
        = Some (t builtin locale "healthFail",
                if message =? "" then None else Some (JStr message))).
Proof.
  unfold healthPanel, handleHealthCheck, checkHealth.
  cbn [Panels.showHealthCheck Panels.healthStatus]. split.
  - intros response ->. cbn [HealthResult.ok HealthResult.error].
    destruct (Response.ok response); reflexivity.
  - intros message ->. cbn [HealthResult.ok HealthResult.error truthy].
    now destruct (message =? "").
Qed.

Lemma healthPanel_after_check_witness :
  healthPanel noBuiltin en
    (handleHealthCheck serverDown (Panels.make false false None))
  = Some (JStr "Server unreachable", Some (JStr "HTTP 503"))
  /\ healthPanel noBuiltin en
       (handleHealthCheck (fun _ => Throw (ErrorObject ""))
          (Panels.make false false None))
     = Some (JStr "Server unreachable", None).
Proof.
  split.
  - apply (proj1 (healthPanel_after_check noBuiltin serverDown en
                    (Panels.make false false None))
             (Response.make 503 (Throw (ErrorObject "Unexpected token <")))).
    reflexivity.
  - apply (proj2 (healthPanel_after_check noBuiltin
                    (fun _ => Throw (ErrorObject "")) en
                    (Panels.make false false None)) "").
    reflexivity.
Defined.

(** ** What is rendered *)

Lemma replace_unfold (s pattern replacement : string) :
  replace s pattern replacement
  = if startsWith s pattern
    then replacement ++ skip (String.length pattern) s
    else match s with
         | EmptyString => EmptyString
         | String c rest => String c (replace rest pattern replacement)
         end.
Proof. destruct s; reflexivity. Qed.

Lemma skip_prefix (prefix rest : string) :
  skip (String.length prefix) (prefix ++ rest) = rest.
Proof. induction prefix as [|c prefix IH]; [now destruct rest | exact IH]. Qed.

Lemma replace_prefix (prefix rest : string) :
  replace (prefix ++ rest) prefix "" = rest.
Proof.
  rewrite replace_unfold.
  assert (H : startsWith (prefix ++ rest) prefix = true)
    by (apply startsWith_true_iff; now exists rest).
  rewrite H. cbn [append]. apply skip_prefix.
Qed.

(** X18. The prefixes that tag system messages are read back as they
    were written: a system message "error:" followed by a code is
    rendered as the error bubble of exactly that code, whatever the code
    holds, and "suggestions:" followed by a text as the quick replies
    parsed from exactly that text.  In particular the message shown for
    a failed request is rendered as the error bubble of its category.
    Messages of the user and of the assistant are never read for a
    prefix. *)
Theorem MessageBubble_decodes (parseJson : string -> Completion JsVal)
    (now : float) :
  (forall code,
     MessageBubble parseJson (systemMessage now ("error:" ++ code))
     = Normal (ErrorBubbleOf code))
  /\ (forall text,
        MessageBubble parseJson (systemMessage now ("suggestions:" ++ text))
        = (suggestions <- parseJson text ;; Normal (QuickRepliesOf suggestions)))
  /\ (forall toText jsonText later r,
        truthy (ChatResponse.error r) = true ->
        map (MessageBubble parseJson)
          (answerMessages toText jsonText now later (Normal r))
        = [Normal (ErrorBubbleOf (toText (ChatResponse.error r)))])
  /\ (forall m,
        Message.role m <> system ->
        exists showsTime,
          MessageBubble parseJson m
          = Normal (Speech (isUser m) (Message.content m) showsTime)).
Proof.
  assert (Herror : forall code,
             MessageBubble parseJson (systemMessage now ("error:" ++ code))
             = Normal (ErrorBubbleOf code)).
  { intros code. unfold MessageBubble, systemMessage.
    cbn [Message.role Message.content].
    assert (H : startsWith ("error:" ++ code) "error:" = true)
      by (apply startsWith_true_iff; now exists code).
    now rewrite H, replace_prefix. }
  split; [exact Herror|]. split; [|split].
  - intros text. unfold MessageBubble, systemMessage.
    cbn [Message.role Message.content].
    assert (H : startsWith ("suggestions:" ++ text) "suggestions:" = true)
      by (apply startsWith_true_iff; now exists text).
    rewrite H, replace_prefix. reflexivity.
  - intros toText jsonText later r Hr. unfold answerMessages. rewrite Hr.
    cbn [map]. now rewrite Herror.
  - intros m Hm. unfold MessageBubble, isUser.
    destruct (Message.role m); [| |contradiction]; eexists; reflexivity.
Qed.

Lemma MessageBubble_decodes_witness :
  map (MessageBubble (fun _ => Normal JNull))
    (answerMessages plainText (fun _ => "") 1%float 2%float
       (Normal (ChatResponse.make (JStr "") JUndefined JUndefined
                  (JStr "error:again") (JStr "http_400"))))
  = [Normal (ErrorBubbleOf "error:again")].
Proof.
  apply (proj1 (proj2 (proj2
           (MessageBubble_decodes (fun _ => Normal JNull) 1%float)))
           plainText (fun _ => "") 2%float
           (ChatResponse.make (JStr "") JUndefined JUndefined
              (JStr "error:again") (JStr "http_400"))).
  reflexivity.
Defined.

Lemma errorMessages_unknown (builtin : JsVal -> string -> JsVal)
    (locale : Locale) (code : string) :
  ~ In code knownErrorCodes ->
  lookup code (bodyFields (errorMessages builtin locale)) = None.
Proof.
  intros Hno. cbn [errorMessages bodyFields lookup].
  repeat match goal with
         | |- context [?k =? code] =>
             let E := fresh "E" in
             destruct (k =? code) eqn:E;
             [apply String.eqb_eq in E; subst code; elim Hno; cbn; tauto|]
         end.
  reflexivity.
Qed.

Ltac shown_under key :=
  match goal with
  | locale : Locale |- _ =>
      destruct locale; exists key; eexists;
      (split; [cbn; tauto
              | split; [reflexivity | split; [reflexivity | discriminate]]])
  end.

(** X19. For a code that is one of the six it knows, or that is not
    the name of a built-in member of objects, the error bubble shows a
    text of the translation table, and never an empty one: the text
    under one of the five [error...] keys for a code it knows, and the
    [errorUnknown] text of the locale for any other code, [server_error]
    and the raw "HTTP ..." messages among them. *)
Theorem ErrorBubble_text (builtin : JsVal -> string -> JsVal)
    (errorCode : string) (locale : Locale) :
  In errorCode knownErrorCodes
  \/ builtin (errorMessages builtin locale) errorCode = JUndefined ->
  (exists key text,
     In key ["errorNetwork"; "errorTimeout"; "errorQuota"; "errorBilling";
             "errorUnknown"]
     /\ lookup key (bodyFields (translations locale)) = Some (JStr text)
     /\ ErrorBubble builtin errorCode locale = JStr text
     /\ text <> "")
  /\ (~ In errorCode knownErrorCodes ->
      ErrorBubble builtin errorCode locale = t builtin locale "errorUnknown").
Proof.
  intros Hcode.
  assert (Hunknown : ~ In errorCode knownErrorCodes ->
                     builtin (errorMessages builtin locale) errorCode = JUndefined ->
                     ErrorBubble builtin errorCode locale
                     = t builtin locale "errorUnknown").
  { intros Hno Hbuiltin. unfold ErrorBubble, member.
    pose proof (errorMessages_unknown builtin locale errorCode Hno) as Hlook.
    unfold errorMessages in *. cbn [bodyFields] in Hlook.
    now rewrite Hlook, Hbuiltin. }
  assert (Hdec : In errorCode knownErrorCodes \/ ~ In errorCode knownErrorCodes).
  { destruct (in_dec string_dec errorCode knownErrorCodes); [now left | now right]. }
  split.
  - destruct Hdec as [Hin | Hno].
    + destruct Hin as [<- | [<- | [<- | [<- | [<- | [<- | []]]]]]].
      * shown_under "errorNetwork".
      * shown_under "errorTimeout".
      * shown_under "errorQuota".
      * shown_under "errorBilling".
      * shown_under "errorBilling".
      * shown_under "errorUnknown".
    + destruct Hcode as [Hin | Hbuiltin]; [contradiction|].
      rewrite (Hunknown Hno Hbuiltin). shown_under "errorUnknown".
  - intros Hno. destruct Hcode as [Hin | Hbuiltin]; [contradiction|].
    exact (Hunknown Hno Hbuiltin).
Qed.

Lemma ErrorBubble_text_witness :
  isText (ErrorBubble noBuiltin "invalid_api_key" it) = true
  /\ ErrorBubble noBuiltin "server_error" en
     = JStr "Something went wrong. Please try again.".
Proof.
  split.
  - destruct (proj1 (ErrorBubble_text noBuiltin "invalid_api_key" it
                       (or_introl (or_intror (or_intror (or_intror (or_intror
                          (or_introl eq_refl))))))))
      as [key [text [_ [_ [Hshown _]]]]].
    now rewrite Hshown.
  - apply (proj2 (ErrorBubble_text noBuiltin "server_error" en
                    (or_intror eq_refl))).
    cbn. intros H. repeat (destruct H as [H | H]; [discriminate H|]). exact H.
Defined.

(* ================================================================== *)
(** * Further properties of the locale and the translation lookup *)
(* ================================================================== *)

Lemma strictEq_true_iff (v : JsVal) (label : string) :
  strictEq v label = true <-> v = JStr label.
Proof.
  destruct v; cbn; try (split; discriminate).
  rewrite String.eqb_eq. split; [now intros -> | intros H; now inversion H].
Qed.

(** X20. [detectLocale] answers [it] exactly when the configured
    default is "it", or it is neither "it" nor "en" and the browser
    language begins, in any case, with "it"; in every other case the
    answer is [en]. *)
Theorem detectLocale_it_iff (envLocale : JsVal) (browserLanguage : string) :
  detectLocale envLocale browserLanguage = it
  <-> envLocale = JStr "it"
      \/ (envLocale <> JStr "it" /\ envLocale <> JStr "en"
          /\ exists found rest,
               browserLanguage = found ++ rest /\ toLowerCase found = "it").
Proof.
  unfold detectLocale.
  pose proof (strictEq_true_iff envLocale "it") as Hit.
  pose proof (strictEq_true_iff envLocale "en") as Hen.
  assert (Hprefix : startsWith (toLowerCase browserLanguage) "it" = true
                    <-> exists found rest,
                          browserLanguage = found ++ rest
                          /\ toLowerCase found = "it").
  { rewrite startsWith_true_iff. split.
    - intros [rest H]. apply toLowerCase_app_inv in H as [a [b [-> [Ha _]]]].
      now exists a, b.
    - intros [found [rest [-> H]]]. exists (toLowerCase rest).
      now rewrite toLowerCase_app, H. }
  destruct (strictEq envLocale "it") eqn:E1.
  - split; [intros _; left; now apply Hit | reflexivity].
  - assert (N1 : envLocale <> JStr "it")
      by (intros H; apply Hit in H; discriminate).
    destruct (strictEq envLocale "en") eqn:E2.
    + split; [discriminate|].
      intros [H | [_ [H _]]]; [contradiction|]. elim H. now apply Hen.
    + assert (N2 : envLocale <> JStr "en")
        by (intros H; apply Hen in H; discriminate).
      destruct (startsWith (toLowerCase browserLanguage) "it") eqn:E3.
      * split; [|reflexivity]. intros _. right. repeat split; try assumption.
        now apply Hprefix.
      * split; [discriminate|].
        intros [H | [_ [_ H]]]; [contradiction|]. apply Hprefix in H. discriminate.
Qed.

(** X21. A key whose first segment names nothing, neither an entry
    of the table nor a built-in member of objects, comes back unchanged,
    however many segments follow. *)
Theorem t_missing_key (builtin : JsVal -> string -> JsVal) (locale : Locale)
    (key first : string) (rest : list string) :
  split "." key = first :: rest ->
  lookup first (bodyFields (translations locale)) = None ->
  builtin (translations locale) first = JUndefined ->
  t builtin locale key = JStr key.
Proof.
  intros Hsplit Hlookup Hbuiltin. unfold t. rewrite Hsplit. cbn [fold_left].
  assert (H : member builtin (translations locale) first = JUndefined).
  { destruct locale; cbn [translations member bodyFields] in *;
      now rewrite Hlookup. }
  now rewrite H, walk_undefined.
Qed.

Lemma t_missing_key_witness :
  t noBuiltin it "errors.network" = JStr "errors.network".
Proof.
  apply (t_missing_key noBuiltin it "errors.network" "errors" ["network"]);
    reflexivity.
Defined.
